(** * Manifest CLI text utilities: document cleanup and markdown validation

    A shallow embedding of [scripts/document-cleanup.py] (class
    [DocumentCleanup]) and [scripts/markdown-manager.py] (class
    [MarkdownManager]).

    - [Py]: the Python built-ins the two scripts call ([str.rstrip],
      [str.split], text-mode decoding with universal newlines, the
      regular expressions of the scripts).
    - [Fs]: the part of the file system the scripts touch, with the
      exceptions its operations raise.
    - [DocumentCleanup], [MarkdownManager]: the methods themselves. *)

From Stdlib Require Import NArith List String Ascii Bool Arith Lia.
From Stdlib.Strings Require Import Byte.
From stdpp Require Import base option list strings gmap.

Set Default Proof Using "Type".
Local Open Scope N_scope.

(* ===================================================================== *)
(** ** Python text primitives *)
(* ===================================================================== *)

Module Py.

(** A Python [str] is a sequence of Unicode code points. *)
Definition char := N.
Definition str := list char.

Definition TAB : char := 9.
Definition LF : char := 10.
Definition CR : char := 13.
Definition SP : char := 32.
Definition HASH : char := 35.
Definition BACKTICK : char := 96.

(** A literal made of ASCII characters, as a [str]. *)
Definition lit (s : string) : str :=
  map (fun a => N_of_ascii a) (list_ascii_of_string s).

(** [c in ' \t']: the characters passed to [rstrip(' \t')] and the class
    [[ \t]] of the regular expressions. *)
Definition is_blank (c : char) : bool := (c =? SP) || (c =? TAB).

(** [str.isspace] on one character, which is also the class [\s] of [re]
    on [str] patterns: the code points Python treats as white space. *)
Definition isspace (c : char) : bool :=
  ((9 <=? c) && (c <=? 13)) || ((28 <=? c) && (c <=? 32))
  || (c =? 133) || (c =? 160) || (c =? 5760)
  || ((8192 <=? c) && (c <=? 8202))
  || (c =? 8232) || (c =? 8233) || (c =? 8239) || (c =? 8287)
  || (c =? 12288).

(** [s.rstrip(chars)]: drop the longest suffix of characters satisfying [p]. *)
Fixpoint rstrip (p : char -> bool) (s : str) : str :=
  match s with
  | [] => []
  | c :: s' =>
      match rstrip p s' with
      | [] => if p c then [] else [c]
      | r => c :: r
      end
  end.

(** [s.lstrip(chars)]. *)
Fixpoint lstrip (p : char -> bool) (s : str) : str :=
  match s with
  | [] => []
  | c :: s' => if p c then lstrip p s' else s
  end.

(** [s.strip()] with no argument strips white space on both sides. *)
Definition strip (s : str) : str := lstrip isspace (rstrip isspace s).

Fixpoint str_eqb (s t : str) : bool :=
  match s, t with
  | [], [] => true
  | c :: s', d :: t' => (c =? d) && str_eqb s' t'
  | _, _ => false
  end.

(** [s.startswith(pre)]. *)
Fixpoint startswith (pre s : str) : bool :=
  match pre, s with
  | [], _ => true
  | c :: pre', d :: s' => (c =? d) && startswith pre' s'
  | _ :: _, [] => false
  end.

(** [s.endswith(suf)]. *)
Definition endswith (suf s : str) : bool := startswith (rev suf) (rev s).

(** [s[:-k]]. *)
Definition drop_last (k : nat) (s : str) : str :=
  firstn (length s - k) s.

(** [''.join(parts)]. *)
Definition join0 (parts : list str) : str := concat parts.

(** [sep.join(parts)] for a one-character separator. *)
Fixpoint join (sep : char) (parts : list str) : str :=
  match parts with
  | [] => []
  | [p] => p
  | p :: ps => p ++ sep :: join sep ps
  end.

(** [s.split('\n')]: the pieces between newlines; never empty. *)
Fixpoint split_nl (s : str) : list str :=
  match s with
  | [] => [[]]
  | c :: s' =>
      if c =? LF then [] :: split_nl s'
      else match split_nl s' with
           | [] => [[c]]
           | l :: ls => (c :: l) :: ls
           end
  end.

(** The lines [f.readlines()] returns for decoded text [s]: every line
    keeps its ['\n']; only the last one may lack it; no line for [''] . *)
Fixpoint keepends (s : str) : list str :=
  match s with
  | [] => []
  | c :: s' =>
      if c =? LF then [c] :: keepends s'
      else match keepends s' with
           | [] => [[c]]
           | l :: ls => (c :: l) :: ls
           end
  end.

(** Universal-newlines translation, which text-mode [open(.., 'r')] with
    the default [newline=None] applies to what it decodes: ['\r\n'] and a
    lone ['\r'] both become ['\n']. *)
Fixpoint universal_newlines (s : str) : str :=
  match s with
  | [] => []
  | c :: s' =>
      if c =? CR then
        LF :: match s' with
              | d :: s'' =>
                  if d =? LF then universal_newlines s''
                  else universal_newlines s'
              | [] => []
              end
      else c :: universal_newlines s'
  end.

(** *** UTF-8, strict error handling *)

Definition bytes := list byte.

Definition is_cont (b : N) : bool := (128 <=? b) && (b <=? 191).

(** [bytes.decode('utf-8')]: [None] stands for [UnicodeDecodeError]
    (stray or missing continuation byte, overlong form, surrogate, code
    point above U+10FFFF). *)
Fixpoint decode_N (bs : list N) : option str :=
  match bs with
  | [] => Some []
  | b0 :: r0 =>
      if b0 <? 128 then cons b0 <$> decode_N r0
      else if (194 <=? b0) && (b0 <=? 223) then
        match r0 with
        | b1 :: r1 =>
            if is_cont b1
            then cons ((b0 - 192) * 64 + (b1 - 128)) <$> decode_N r1
            else None
        | _ => None
        end
      else if (224 <=? b0) && (b0 <=? 239) then
        match r0 with
        | b1 :: b2 :: r2 =>
            let cp := (b0 - 224) * 4096 + (b1 - 128) * 64 + (b2 - 128) in
            if is_cont b1 && is_cont b2 && (2048 <=? cp)
               && negb ((55296 <=? cp) && (cp <=? 57343))
            then cons cp <$> decode_N r2
            else None
        | _ => None
        end
      else if (240 <=? b0) && (b0 <=? 244) then
        match r0 with
        | b1 :: b2 :: b3 :: r3 =>
            let cp := (b0 - 240) * 262144 + (b1 - 128) * 4096
                      + (b2 - 128) * 64 + (b3 - 128) in
            if is_cont b1 && is_cont b2 && is_cont b3
               && (65536 <=? cp) && (cp <=? 1114111)
            then cons cp <$> decode_N r3
            else None
        | _ => None
        end
      else None
  end.

Definition decode (bs : bytes) : option str := decode_N (map Byte.to_N bs).

Definition byte_of (n : N) : byte :=
  match Byte.of_N n with Some b => b | None => x00 end.

(** The UTF-8 bytes of one code point; [None] stands for
    [UnicodeEncodeError] (a surrogate, or not a code point at all). *)
Definition encode_char (c : char) : option bytes :=
  if c <? 128 then Some [byte_of c]
  else if c <? 2048 then
    Some [byte_of (192 + c / 64); byte_of (128 + c mod 64)]
  else if c <? 65536 then
    if (55296 <=? c) && (c <=? 57343) then None
    else Some [byte_of (224 + c / 4096); byte_of (128 + (c / 64) mod 64);
               byte_of (128 + c mod 64)]
  else if c <=? 1114111 then
    Some [byte_of (240 + c / 262144); byte_of (128 + (c / 4096) mod 64);
          byte_of (128 + (c / 64) mod 64); byte_of (128 + c mod 64)]
  else None.

(** [s.encode('utf-8')]. *)
Fixpoint encode (s : str) : option bytes :=
  match s with
  | [] => Some []
  | c :: s' =>
      match encode_char c, encode s' with
      | Some b, Some bs => Some (b ++ bs)
      | _, _ => None
      end
  end.

(** The bytes of an ASCII literal. *)
Definition blit (s : string) : bytes := list_byte_of_string s.

(** What [open(p, 'r', encoding='utf-8').read()] makes of the bytes of a
    file: decoded, then newline-translated. [Path.read_text] is the same. *)
Definition read_text (bs : bytes) : option str :=
  universal_newlines <$> decode bs.

(** *** The regular expressions of the two scripts *)

(** [n] newlines, as [re.sub(r'\n{3,}', '\n\n', _)] leaves them: a maximal
    run of three or more becomes two, a shorter run stays. *)
Definition flush_newlines (n : nat) : str :=
  if (3 <=? n)%nat then [LF; LF] else repeat LF n.

(** [re.sub(r'\n{3,}', '\n\n', s)], scanning left to right; [pending]
    counts the newlines of the run being read (the quantifier is greedy,
    so a match always takes the whole run). *)
Fixpoint sub_newline_runs (pending : nat) (s : str) : str :=
  match s with
  | [] => flush_newlines pending
  | c :: s' =>
      if c =? LF then sub_newline_runs (S pending) s'
      else flush_newlines pending ++ c :: sub_newline_runs 0 s'
  end.

(** A match of [^[ \t]+$] under [re.MULTILINE] is a whole line made of one
    or more blanks: [^] holds at the start and after each ['\n'], [$] at
    the end and before each ['\n']. *)
Definition is_blank_line (l : str) : bool :=
  match l with
  | [] => false
  | _ => forallb is_blank l
  end.

(** [re.sub(r'^[ \t]+$', '', s, flags=re.MULTILINE)]. *)
Definition sub_blank_lines (s : str) : str :=
  join LF (map (fun l => if is_blank_line l then [] else l) (split_nl s)).

(** [re.search(r'[ \t]+$', s, re.MULTILINE)] finds a match exactly when
    some blank sits right before a ['\n'] or at the very end. *)
Fixpoint search_trailing_blank (s : str) : bool :=
  match s with
  | [] => false
  | c :: s' =>
      (is_blank c && match s' with [] => true | d :: _ => d =? LF end)
      || search_trailing_blank s'
  end.

(** [re.search(r'\n\s*\n\s*\n\s*\n', s)]: four newlines with nothing but
    white space between them. [seen] counts the newlines read since the
    last character that is not white space. *)
Fixpoint search_blank_run (seen : nat) (s : str) : bool :=
  match s with
  | [] => false
  | c :: s' =>
      if c =? LF then (3 <=? seen)%nat || search_blank_run (S seen) s'
      else if isspace c then search_blank_run seen s'
      else search_blank_run 0 s'
  end.

(** How many ['#'] a line starts with, and what follows them. *)
Fixpoint count_hashes (l : str) : nat * str :=
  match l with
  | c :: l' =>
      if c =? HASH then let '(k, r) := count_hashes l' in (S k, r)
      else (O, l)
  | [] => (O, [])
  end.

(** [len(m.group(1))] for [m = re.match(r'^(#+)\s+', line)], or [None]
    when there is no match: the hashes the line starts with, provided
    there is at least one and white space follows them ([#+] is greedy,
    and giving hashes back never helps [\s+]). *)
Definition match_heading (line : str) : option nat :=
  match count_hashes line with
  | (S k, c :: _) => if isspace c then Some (S k) else None
  | _ => None
  end.

(** [len(re.findall(r'^```', s, re.MULTILINE))]: the lines that start
    with three backticks. *)
Definition count_fences (s : str) : nat :=
  length (List.filter (startswith [BACKTICK; BACKTICK; BACKTICK])
                      (split_nl s)).

End Py.

(* ===================================================================== *)
(** ** Exceptions and effects *)
(* ===================================================================== *)

(** The exceptions the modelled calls raise; all of them are caught by
    [except Exception]. *)
Inductive exn :=
| FileNotFoundError
| FileExistsError
| PermissionError
| IsADirectoryError
| NotADirectoryError
| SameFileError
| UnicodeDecodeError
| UnicodeEncodeError.

Inductive outcome (A : Type) :=
| Return (a : A)
| Raise (e : exn).
Arguments Return {A} a.
Arguments Raise {A} e.

(** A computation over a state [S] that returns or raises; what it did
    to the state before raising stays done. *)
Definition io (S A : Type) : Type := S -> outcome A * S.

Definition ret {S A} (a : A) : io S A := fun s => (Return a, s).
Definition raise {S A} (e : exn) : io S A := fun s => (Raise e, s).

Definition bind {S A B} (m : io S A) (k : A -> io S B) : io S B :=
  fun s =>
    match m s with
    | (Return a, s') => k a s'
    | (Raise e, s') => (Raise e, s')
    end.

(** [try: m  except Exception as e: h e]. *)
Definition try_except {S A} (m : io S A) (h : exn -> io S A) : io S A :=
  fun s =>
    match m s with
    | (Return a, s') => (Return a, s')
    | (Raise e, s') => h e s'
    end.

Definition gets {S A} (f : S -> A) : io S A := fun s => (Return (f s), s).
Definition modify {S} (f : S -> S) : io S unit := fun s => (Return tt, f s).

Declare Scope io_scope.
Delimit Scope io_scope with io.
Notation "x <- m ;; k" := (bind m (fun x => k))
  (at level 20, m at level 99, k at level 200, only parsing) : io_scope.
Notation "m ;; k" := (bind m (fun _ => k))
  (at level 100, k at level 200, only parsing, right associativity) : io_scope.
Local Open Scope io_scope.

(** The [level] argument of the [log] method both classes have. *)
Inductive level := Info | Success | Warning | Error | Debug.

Definition is_debug (l : level) : bool :=
  match l with Debug => true | _ => false end.

(* ===================================================================== *)
(** ** The file system *)
(* ===================================================================== *)

Module Fs.
Import Py.

(** A [pathlib.Path] relative to the working directory, as its parts;
    [[]] is the working directory itself. *)
Abbreviation path := (list string).

(** [p.name]: the last part. *)
Definition name (p : path) : string := List.last p EmptyString.

(** [p.parent]. *)
Definition parent (p : path) : path := removelast p.

(** An entry: a directory (entries may be added and removed when [w]) or
    a regular file with its bytes and whether the process may read and
    write it. *)
Inductive node :=
| Dir (w : bool)
| File (content : bytes) (r w : bool).

Abbreviation disk := (gmap (list string) node).

(** [p.exists()]. *)
Definition exists_ (p : path) : io disk bool :=
  gets (fun d => match d !! p with Some _ => true | None => false end).

(** [p.is_file()]. *)
Definition is_file (p : path) : io disk bool :=
  gets (fun d => match d !! p with Some (File _ _ _) => true | _ => false end).

(** [open(p, 'rb').read()]. *)
Definition read_bytes (p : path) : io disk bytes :=
  fun d =>
    match d !! p with
    | None => (Raise FileNotFoundError, d)
    | Some (Dir _) => (Raise IsADirectoryError, d)
    | Some (File c r _) =>
        if r then (Return c, d) else (Raise PermissionError, d)
    end.

(** [open(p, 'w')] or [open(p, 'wb')]: an existing file is truncated, a
    missing one is created in its directory. *)
Definition open_w (p : path) : io disk unit :=
  fun d =>
    match d !! p with
    | Some (Dir _) => (Raise IsADirectoryError, d)
    | Some (File _ r w) =>
        if w then (Return tt, <[p := File [] r w]> d)
        else (Raise PermissionError, d)
    | None =>
        match d !! parent p with
        | Some (Dir true) => (Return tt, <[p := File [] true true]> d)
        | Some (Dir false) => (Raise PermissionError, d)
        | Some (File _ _ _) => (Raise NotADirectoryError, d)
        | None => (Raise FileNotFoundError, d)
        end
    end.

(** [f.write(bs)] on the file opened at [p]. *)
Definition put_bytes (p : path) (bs : bytes) : io disk unit :=
  modify (fun d =>
    match d !! p with
    | Some (File _ r w) => <[p := File bs r w]> d
    | _ => d
    end).

(** [with open(p, 'r', encoding='utf-8') as f: f.readlines()]. *)
Definition readlines (p : path) : io disk (list str) :=
  bs <- read_bytes p ;;
  match read_text bs with
  | Some s => ret (keepends s)
  | None => raise UnicodeDecodeError
  end.

(** [p.read_text(encoding='utf-8')]. *)
Definition read_text_file (p : path) : io disk str :=
  bs <- read_bytes p ;;
  match read_text bs with
  | Some s => ret s
  | None => raise UnicodeDecodeError
  end.

(** [with open(p, 'w', encoding='utf-8') as f: f.write(s)]. On a POSIX
    system ['\n'] is written as it is. The file is truncated when it is
    opened, before anything is encoded. *)
Definition write_text (p : path) (s : str) : io disk unit :=
  open_w p ;;
  match encode s with
  | Some bs => put_bytes p bs
  | None => raise UnicodeEncodeError
  end.

(** [shutil.copy2(src, dst)]: into [dst] when it is a directory; refuses
    to copy a file onto itself; copies the bytes, then the permission
    bits. *)
Definition copy2 (src dst : path) : io disk unit :=
  d0 <- gets id ;;
  let dst' := match d0 !! dst with
              | Some (Dir _) => dst ++ [name src]
              | _ => dst
              end in
  match d0 !! src with
  | Some _ =>
      if bool_decide (src = dst') then raise SameFileError
      else
        c <- read_bytes src ;;
        open_w dst' ;;
        modify (fun d =>
          match d0 !! src with
          | Some (File _ r w) => <[dst' := File c r w]> d
          | _ => d
          end)
  | None => raise FileNotFoundError
  end.

(** [p.unlink()]. *)
Definition unlink (p : path) : io disk unit :=
  fun d =>
    match d !! p with
    | None => (Raise FileNotFoundError, d)
    | Some (Dir _) => (Raise IsADirectoryError, d)
    | Some (File _ _ _) =>
        match d !! parent p with
        | Some (Dir true) => (Return tt, delete p d)
        | _ => (Raise PermissionError, d)
        end
    end.

(** [p.mkdir(exist_ok=True)]: nothing to do for a directory that is
    there; anything else in the way, or a directory that cannot take a
    new entry, raises. *)
Definition mkdir_exist_ok (p : path) : io disk unit :=
  fun d =>
    match d !! p with
    | Some (Dir _) => (Return tt, d)
    | Some (File _ _ _) => (Raise FileExistsError, d)
    | None =>
        match d !! parent p with
        | Some (Dir true) => (Return tt, <[p := Dir true]> d)
        | Some (Dir false) => (Raise PermissionError, d)
        | Some (File _ _ _) => (Raise NotADirectoryError, d)
        | None => (Raise FileNotFoundError, d)
        end
    end.

End Fs.

(* ===================================================================== *)
(** ** scripts/document-cleanup.py *)
(* ===================================================================== *)

Module DocumentCleanup.
Import Py Fs.

(** The messages of the class, one constructor per format string;
    [Blank] is the bare [print()] of [clean_all]. *)
Inductive msg :=
| FileNotFound (p : path)
| NotAFile (p : path)
| Cleaning (name : string)
| DryRunNoChangesWillBeMade
| BackupCreated (b : path)
| CouldNotCreateBackup (e : exn)
| ProcessingLine (line_num : nat)
| FileCleaned
| BackupSaved (b : path)
| NoChangesNeeded
| ErrorCleaningFile (p : path) (e : exn)
| RestoredFromBackup
| CleaningFiles
| Blank
| Cleaned (success_count total : nat)
| AutoCleaningUp
| BackupFilesCleanedUp
| BackupsStoredIn (dir : path)
| DryRunNoChangesWereMade.

(** What a run acts on: the disk, the console, and how many times the
    clock has been read. *)
Record world := World {
  fs : disk;
  out : list (level * msg);
  tick : nat
}.

Definition set_fs (d : disk) (w : world) : world :=
  World d (out w) (tick w).

(** A file-system operation, run on the disk of the world. *)
Definition on_disk {A} (m : io disk A) : io world A :=
  fun w => let '(r, d) := m (fs w) in (r, set_fs d w).

(** [self.backup_dir], set by [__init__]. *)
Definition backup_dir : path := [".document-backups"%string].

(** Lines 92-104 of the script need the clock, line 205 [shutil.rmtree]. *)
Section Methods.

(** [self.debug]. *)
Variable debug : bool.

(** [datetime.now().strftime("%Y%m%d_%H%M%S")] at the n-th reading of
    the clock. *)
Variable clock : nat -> string.

(** [shutil.rmtree], left open: no property below depends on it. *)
Variable rmtree : path -> io disk unit.

(** [self.log(message, level)]: debug messages only when [self.debug]. *)
Definition log (l : level) (m : msg) : io world unit :=
  if is_debug l && negb debug then ret tt
  else modify (fun w => World (fs w) (out w ++ [(l, m)]) (tick w)).

(** The world after [self.log(m, l)]. *)
Definition logged (l : level) (m : msg) (w : world) : world :=
  if is_debug l && negb debug then w
  else World (fs w) (out w ++ [(l, m)]) (tick w).

Definition now : io world string :=
  fun w => (Return (clock (tick w)), World (fs w) (out w) (S (tick w))).

(** [f"{file_path.name}.{timestamp}.backup"] under [self.backup_dir]. *)
Definition backup_path_of (file_path : path) (timestamp : string) : path :=
  backup_dir ++ [(name file_path ++ "." ++ timestamp ++ ".backup")%string].

(** [create_backup], lines 92-104. The [mkdir] stands before the [try]. *)
Definition create_backup (file_path : path) : io world (option path) :=
  on_disk (mkdir_exist_ok backup_dir) ;;
  timestamp <- now ;;
  let backup_path := backup_path_of file_path timestamp in
  try_except
    (on_disk (copy2 file_path backup_path) ;;
     log Debug (BackupCreated backup_path) ;;
     ret (Some backup_path))
    (fun e =>
     log Warning (CouldNotCreateBackup e) ;;
     ret None).

(** The body of the [for] loop, lines 139-149, for the line numbered
    [line_num] of [n_lines]. *)
Definition clean_line (n_lines line_num : nat) (line : str) : str :=
  let cleaned_line := rstrip is_blank line in
  if endswith [CR; LF] cleaned_line then drop_last 2 cleaned_line ++ [LF]
  else if endswith [CR] cleaned_line then drop_last 1 cleaned_line ++ [LF]
  else if negb (endswith [LF] cleaned_line) && (line_num <? n_lines)%nat
       then cleaned_line ++ [LF]
  else cleaned_line.

(** The loop of lines 136-151 over [enumerate(lines, 1)], from
    [line_num] on. *)
Fixpoint clean_lines (n_lines line_num : nat) (lines : list str)
  : io world (list str) :=
  match lines with
  | [] => ret []
  | line :: rest =>
      log Debug (ProcessingLine line_num) ;;
      cleaned_lines <- clean_lines n_lines (S line_num) rest ;;
      ret (clean_line n_lines line_num line :: cleaned_lines)
  end.

(** Lines 153-163: what becomes of the cleaned lines. *)
Definition finish (cleaned_lines : list str) : str :=
  let content := join0 cleaned_lines in
  let content := sub_newline_runs 0 content in
  let content := sub_blank_lines content in
  rstrip isspace content ++ [LF].

(** The list the loop builds, without its log. *)
Fixpoint cleaned (n_lines line_num : nat) (lines : list str) : list str :=
  match lines with
  | [] => []
  | line :: rest =>
      clean_line n_lines line_num line :: cleaned n_lines (S line_num) rest
  end.

(** Lines 132-163 on the lines read: the new content of the file. *)
Definition transform (lines : list str) : str :=
  finish (cleaned (length lines) 1 lines).

(** The transform on the text of a file as [readlines] splits it. *)
Definition cleanup (text : str) : str := transform (keepends text).

(** The [try] suite of [clean_file], lines 128-177. *)
Definition try_suite (file_path : path) (backup_path : option path)
  : io world bool :=
  lines <- on_disk (readlines file_path) ;;
  let original_content := join0 lines in
  cleaned_lines <- clean_lines (length lines) 1 lines ;;
  let content := finish cleaned_lines in
  (if negb (str_eqb content original_content) then
     on_disk (write_text file_path content) ;;
     log Success FileCleaned ;;
     match backup_path with
     | Some b => log Info (BackupSaved b)
     | None => ret tt
     end
   else
     log Info NoChangesNeeded ;;
     match backup_path with
     | Some b => on_disk (unlink b)
     | None => ret tt
     end) ;;
  ret true.

(** The [except Exception as e] suite of [clean_file], lines 179-185. *)
Definition except_suite (file_path : path) (backup_path : option path)
  (e : exn) : io world bool :=
  log Error (ErrorCleaningFile file_path e) ;;
  match backup_path with
  | Some b =>
      bex <- on_disk (exists_ b) ;;
      if bex then
        on_disk (copy2 b file_path) ;;
        log Warning RestoredFromBackup
      else ret tt
  | None => ret tt
  end ;;
  ret false.

(** [clean_file], lines 106-185. *)
Definition clean_file (file_path : path) (create_backup_ dry_run : bool)
  : io world bool :=
  ex <- on_disk (exists_ file_path) ;;
  if negb ex then
    log Error (FileNotFound file_path) ;; ret false
  else
  isf <- on_disk (is_file file_path) ;;
  if negb isf then
    log Error (NotAFile file_path) ;; ret false
  else
  log Info (Cleaning (name file_path)) ;;
  if dry_run then
    log Info DryRunNoChangesWillBeMade ;; ret true
  else
  backup_path <- (if create_backup_ then create_backup file_path
                  else ret None) ;;
  try_except (try_suite file_path backup_path)
             (except_suite file_path backup_path).

(** The loop of lines 194-198. *)
Fixpoint clean_each (files : list path) (create_backup_ dry_run : bool)
  (success_count : nat) : io world nat :=
  match files with
  | [] => ret success_count
  | file_path :: rest =>
      ok <- clean_file file_path create_backup_ dry_run ;;
      log Info Blank ;;
      clean_each rest create_backup_ dry_run
        (if ok then S success_count else success_count)
  end.

(** [clean_all], lines 187-212. *)
Definition clean_all (files : list path)
  (create_backup_ dry_run auto_cleanup : bool) : io world bool :=
  log Info CleaningFiles ;;
  (if create_backup_ && negb dry_run
   then on_disk (mkdir_exist_ok backup_dir) else ret tt) ;;
  success_count <- clean_each files create_backup_ dry_run 0 ;;
  (if negb dry_run then
     log Success (Cleaned success_count (length files)) ;;
     bex <- on_disk (exists_ backup_dir) ;;
     if auto_cleanup && bex then
       log Info AutoCleaningUp ;;
       on_disk (rmtree backup_dir) ;;
       log Success BackupFilesCleanedUp
     else if bex then log Info (BackupsStoredIn backup_dir)
     else ret tt
   else log Info DryRunNoChangesWereMade) ;;
  ret (success_count =? length files)%nat.

End Methods.

(** [self.backup_dir.mkdir(exist_ok=True)] does not raise on [d]: the
    directory is there, or the working directory takes a new entry. *)
Definition backup_dir_ready (d : disk) : Prop :=
  (exists bw, d !! backup_dir = Some (Dir bw))
  \/ (d !! backup_dir = None /\ d !! parent backup_dir = Some (Dir true)).

(** As [backup_dir_ready], and entries can be removed from the backup
    directory. *)
Definition backup_dir_writable (d : disk) : Prop :=
  d !! backup_dir = Some (Dir true)
  \/ (d !! backup_dir = None /\ d !! parent backup_dir = Some (Dir true)).

(** The disk after a [mkdir(exist_ok=True)] of the backup directory that
    did not raise. *)
Definition after_mkdir (d : disk) : disk :=
  match d !! backup_dir with
  | None => <[backup_dir := Dir true]> d
  | Some _ => d
  end.

End DocumentCleanup.


(* ===================================================================== *)
(** ** scripts/markdown-manager.py *)
(* ===================================================================== *)

Module MarkdownManager.
Import Py Fs.

(** The messages of [validate_file], one constructor per format string. *)
Inductive msg :=
| FileNotFound (p : path)
| NotAFile (p : path)
| CannotReadFile (p : path) (e : exn)
| Validating (name : string)
| TrailingWhitespaceFound
| MultipleBlankLinesFound
| HeadingLevelSkipped (line_num : nat) (stripped_line : str)
| UnclosedCodeBlockFound
| ShouldEndWithNewline
| FileIsEmpty
| ShouldStartWithHeader
| Valid
| WarningsOnly (warnings : nat)
| ErrorsAndWarnings (errors warnings : nat).

Record world := World {
  fs : disk;
  out : list (level * msg)
}.

Definition on_disk {A} (m : io disk A) : io world A :=
  fun w => let '(r, d) := m (fs w) in (r, World d (out w)).

Section Methods.

(** [self.debug]. *)
Variable debug : bool.

Definition log (l : level) (m : msg) : io world unit :=
  if is_debug l && negb debug then ret tt
  else modify (fun w => World (fs w) (out w ++ [(l, m)])).

(** The world after [self.log(m, l)]. *)
Definition logged (l : level) (m : msg) (w : world) : world :=
  if is_debug l && negb debug then w
  else World (fs w) (out w ++ [(l, m)]).

(** Check 3, lines 104-111: the loop over [enumerate(lines, 1)] from
    [line_num] on, with the loop's variables [prev_level] and [errors]. *)
Fixpoint check_headings (line_num : nat) (lines : list str)
  (prev_level errors : nat) : io world nat :=
  match lines with
  | [] => ret errors
  | line :: rest =>
      match match_heading line with
      | Some current_level =>
          errors <- (if (prev_level + 1 <? current_level)%nat then
                       log Error (HeadingLevelSkipped line_num (strip line)) ;;
                       ret (errors + 1)%nat
                     else ret errors) ;;
          check_headings (S line_num) rest current_level errors
      | None => check_headings (S line_num) rest prev_level errors
      end
  end.

(** Lines 90-142: the checks on the text read, and the report. *)
Definition validate_content (file_name : string) (content : str)
  : io world (nat * nat) :=
  let errors := 0%nat in
  let warnings := 0%nat in
  log Info (Validating file_name) ;;
  (* Check 1 *)
  errors <- (if search_trailing_blank content then
               log Error TrailingWhitespaceFound ;; ret (errors + 1)%nat
             else ret errors) ;;
  (* Check 2 *)
  errors <- (if search_blank_run 0 content then
               log Error MultipleBlankLinesFound ;; ret (errors + 1)%nat
             else ret errors) ;;
  (* Check 3 *)
  let prev_level := 0%nat in
  errors <- check_headings 1 (split_nl content) prev_level errors ;;
  (* Check 4 *)
  let code_blocks := count_fences content in
  errors <- (if (0 <? code_blocks)%nat && negb (code_blocks mod 2 =? 0)%nat then
               log Error UnclosedCodeBlockFound ;; ret (errors + 1)%nat
             else ret errors) ;;
  (* Check 5 *)
  warnings <- (if negb (str_eqb content []) && negb (endswith [LF] content) then
                 log Warning ShouldEndWithNewline ;; ret (warnings + 1)%nat
               else ret warnings) ;;
  (* Check 6 *)
  errors <- (if str_eqb (strip content) [] then
               log Error FileIsEmpty ;; ret (errors + 1)%nat
             else ret errors) ;;
  (* Check 7 *)
  warnings <- (if negb (str_eqb (strip content) [])
                  && negb (startswith [HASH] (strip content)) then
                 log Warning ShouldStartWithHeader ;; ret (warnings + 1)%nat
               else ret warnings) ;;
  (if (errors =? 0)%nat && (warnings =? 0)%nat then log Success Valid
   else if (errors =? 0)%nat then log Warning (WarningsOnly warnings)
   else log Error (ErrorsAndWarnings errors warnings)) ;;
  ret (errors, warnings).

(** [validate_file], lines 71-142. *)
Definition validate_file (file_path : path) : io world (nat * nat) :=
  ex <- on_disk (exists_ file_path) ;;
  if negb ex then
    log Error (FileNotFound file_path) ;; ret (1, 0)%nat
  else
  isf <- on_disk (is_file file_path) ;;
  if negb isf then
    log Error (NotAFile file_path) ;; ret (1, 0)%nat
  else
  read <- try_except
            (content <- on_disk (read_text_file file_path) ;;
             ret (Some content))
            (fun e =>
             log Error (CannotReadFile file_path e) ;; ret None) ;;
  match read with
  | None => ret (1, 0)%nat
  | Some content => validate_content (name file_path) content
  end.

End Methods.

(** The heading lines among [lines], numbered from [line_num]: each with
    its line number and its level, as line 105 matches them. *)
Fixpoint headings_from (line_num : nat) (lines : list str)
  : list (nat * nat) :=
  match lines with
  | [] => []
  | line :: rest =>
      match match_heading line with
      | Some current_level =>
          (line_num, current_level) :: headings_from (S line_num) rest
      | None => headings_from (S line_num) rest
      end
  end.

(** The headings of a text, with [enumerate(content.split('\n'), 1)]
    numbering its lines. *)
Definition headings (content : str) : list (nat * nat) :=
  headings_from 1 (split_nl content).

(** The heading-skip rule in the spec's words: one previous level, which
    every heading replaces whether or not it is flagged; a heading is
    flagged when its level exceeds the previous level by more than 1. The
    result lists the line numbers flagged. *)
Fixpoint skips (prev_level : nat) (hs : list (nat * nat)) : list nat :=
  match hs with
  | [] => []
  | (line_num, current_level) :: rest =>
      (if (prev_level + 1 <? current_level)%nat then [line_num] else [])
      ++ skips current_level rest
  end.

(** The line numbers of the heading-skip findings on a console. *)
Fixpoint skip_findings (o : list (level * msg)) : list nat :=
  match o with
  | [] => []
  | (_, HeadingLevelSkipped line_num _) :: rest =>
      line_num :: skip_findings rest
  | _ :: rest => skip_findings rest
  end.

End MarkdownManager.

(* ===================================================================== *)
(** ** Concrete files and trees *)
(* ===================================================================== *)

Module Scenarios.
Import Py Fs.

(** A clock whose readings all fall in one second. *)
Definition stamp (_ : nat) : string := "20240101_120000".

Definition a_txt : path := ["a.txt"%string].
Definition b_txt : path := ["b.txt"%string].
Definition a_md : path := ["a.md"%string].

(** A writable working directory holding one regular file. *)
Definition tree1 (p : path) (c : bytes) (r w : bool) : disk :=
  <[ [] := Dir true ]> (<[ p := File c r w ]> ∅).

(** A writable working directory holding two regular files. *)
Definition tree2 (p : path) (c : bytes) (r w : bool)
  (p' : path) (c' : bytes) (r' w' : bool) : disk :=
  <[ p' := File c' r' w' ]> (tree1 p c r w).

(** A fresh run of the cleanup tool on a disk. *)
Definition start (d : disk) : DocumentCleanup.world :=
  DocumentCleanup.World d [] 0.

(** The same run, one call later: the console cleared. *)
Definition again (w : DocumentCleanup.world) : DocumentCleanup.world :=
  DocumentCleanup.World (DocumentCleanup.fs w) [] (DocumentCleanup.tick w).

(** A fresh run of the validator on a disk. *)
Definition start_md (d : disk) : MarkdownManager.world :=
  MarkdownManager.World d [].

(** ["a\n\n \n\nb\n"]: a line holding one space between two empty lines. *)
Definition blank_between : bytes :=
  blit "a" ++ [x0a; x0a; x20; x0a; x0a] ++ blit "b" ++ [x0a].
Definition blank_between_text : str :=
  lit "a" ++ [LF; LF; SP; LF; LF] ++ lit "b" ++ [LF].

(** ["a\n\n\n\nb\n"] and ["a\n\nb\n"]. *)
Definition four_newlines : bytes :=
  blit "a" ++ [x0a; x0a; x0a; x0a] ++ blit "b" ++ [x0a].
Definition two_newlines : bytes :=
  blit "a" ++ [x0a; x0a] ++ blit "b" ++ [x0a].

(** ["Line1   \n"], the first line of the end-to-end example. *)
Definition line1 : str := lit "Line1   " ++ [LF].

(** ["Line1   \nLine2\r\n\n\n\nLine3"], the end-to-end example. *)
Definition end_to_end : bytes :=
  blit "Line1   " ++ [x0a] ++ blit "Line2" ++ [x0d; x0a; x0a; x0a; x0a]
  ++ blit "Line3".

(** ["Line1\nLine2\n\nLine3\n"], what the spec expects of it. *)
Definition end_to_end_expected : bytes :=
  blit "Line1" ++ [x0a] ++ blit "Line2" ++ [x0a; x0a] ++ blit "Line3" ++ [x0a].

(** ["Line1   \nLine2\n\nLine3\n"], what the code makes of it. *)
Definition end_to_end_actual : bytes :=
  blit "Line1   " ++ [x0a] ++ blit "Line2" ++ [x0a; x0a] ++ blit "Line3"
  ++ [x0a].

(** ["a\r\nb\r\n"] and ["a\rb\r"]. *)
Definition crlf : bytes := blit "a" ++ [x0d; x0a] ++ blit "b" ++ [x0d; x0a].
Definition bare_cr : bytes := blit "a" ++ [x0d] ++ blit "b" ++ [x0d].

(** A regular file stands where the backup directory should go. *)
Definition blocked_backup_dir : disk :=
  <[ DocumentCleanup.backup_dir := File [] true true ]>
    (tree1 a_txt (blit "x") true true).

(** The working directory takes no new entry and has no backup
    directory. *)
Definition read_only_cwd : disk :=
  <[ [] := Dir false ]> (<[ a_txt := File (blit "x") true true ]> ∅).

(** [a.txt] may be read but not written; [b.txt] is an ordinary file.
    Both end in two spaces. *)
Definition read_only_first : disk :=
  tree2 a_txt (blit "x  ") true false b_txt (blit "y  ") true true.

(** The backup [create_backup] makes of [a.txt] under [stamp]. *)
Definition a_txt_backup : path :=
  DocumentCleanup.backup_path_of a_txt (stamp 0).

End Scenarios.

(* ===================================================================== *)
(** ** What a run may touch *)
(* ===================================================================== *)

Module Frames.
Import Py Fs DocumentCleanup.


(** [p] names a regular file on [d]: [p.exists() and p.is_file()]. *)
Definition is_regular (d : disk) (p : path) : bool :=
  match d !! p with
  | Some (File _ _ _) => true
  | _ => false
  end.

(** A file-system operation leaves every entry outside [P] as it was,
    whether it returns or raises. *)
Definition disk_keeps {A} (P : path -> Prop) (m : io disk A) : Prop :=
  forall d q, ~ P q -> snd (m d) !! q = d !! q.


End Frames.

(* ===================================================================== *)
(** ** Clean texts *)
(* ===================================================================== *)

Module CleanText.
Import Py.

(** No carriage return in [s]: what text mode hands over. *)
Definition no_cr (s : str) : bool := forallb (fun c => negb (c =? CR)) s.

(** Three newlines in a row somewhere in [s]. *)
Fixpoint has_newline_run3 (s : str) : bool :=
  match s with
  | a :: s' =>
      match s' with
      | b :: c :: _ => ((a =? LF) && (b =? LF) && (c =? LF)) || has_newline_run3 s'
      | _ => false
      end
  | [] => false
  end.

(** Some line of [s] is made of spaces and tabs only, and has at least
    one. *)
Definition has_blank_line (s : str) : bool :=
  existsb is_blank_line (split_nl s).

(** [s] ends with exactly one newline, which follows a character that is
    not white space unless [s] is that newline alone. *)
Definition ends_with_one_newline (s : str) : Prop :=
  s = [LF] \/ exists u c, s = u ++ [c; LF] /\ isspace c = false.

(** A text that needs no cleaning, as the code has it: one newline at the
    end, no three newlines in a row, no line of blanks only. Blanks at
    the end of a line that has something else are allowed. *)
Definition clean (s : str) : Prop :=
  ends_with_one_newline s
  /\ has_newline_run3 s = false
  /\ has_blank_line s = false.

(** What [readlines] returns in text mode: no carriage return, and
    every line but the last ends in a newline. *)
Fixpoint lines_ok (lines : list str) : Prop :=
  match lines with
  | [] => True
  | l :: rest =>
      match rest with
      | [] => no_cr l = true
      | _ => (exists body, l = body ++ [LF] /\ no_cr body = true)
             /\ lines_ok rest
      end
  end.

(** A code point UTF-8 can encode: not a surrogate, at most U+10FFFF. *)
Definition encodable (c : char) : bool :=
  (c <? 55296) || ((57343 <? c) && (c <=? 1114111)).

End CleanText.

(* ===================================================================== *)
(** ** The validator's report, and [validate_all] *)
(* ===================================================================== *)

Module ValidatorReport.
Import Py Fs MarkdownManager.

(** What check 3 logs for [lines], numbered from [line_num], after a
    heading of level [prev_level]: the messages of the loop of lines
    104-111, in order. *)
Fixpoint heading_skips (line_num : nat) (lines : list str) (prev_level : nat)
  : list (level * msg) :=
  match lines with
  | [] => []
  | line :: rest =>
      match match_heading line with
      | Some current_level =>
          (if (prev_level + 1 <? current_level)%nat
           then [(Error, HeadingLevelSkipped line_num (strip line))]
           else [])
          ++ heading_skips (S line_num) rest current_level
      | None => heading_skips (S line_num) rest prev_level
      end
  end.

(** The last line of the report, lines 135-140. *)
Definition verdict (errors warnings : nat) : level * msg :=
  if (errors =? 0)%nat && (warnings =? 0)%nat then (Success, Valid)
  else if (errors =? 0)%nat then (Warning, WarningsOnly warnings)
  else (Error, ErrorsAndWarnings errors warnings).

(** How many messages of a console have level [l]. *)
Definition count_level (l : level) (o : list (level * msg)) : nat :=
  length (List.filter (fun e => match fst e, l with
                                | Info, Info | Success, Success
                                | Warning, Warning | Error, Error
                                | Debug, Debug => true
                                | _, _ => false
                                end) o).

(** The text [validate_file] gets to check: that of a regular file the
    process may read and that decodes as UTF-8. *)
Definition text_of (d : disk) (p : path) : option str :=
  match d !! p with
  | Some (File bs true _) => read_text bs
  | _ => None
  end.

(** The message of a check that fired. *)
Definition when (c : bool) (l : level) (m : msg) : list (level * msg) :=
  if c then [(l, m)] else [].

(** The findings of the seven checks of lines 92-132 on a text, in the
    order they are logged. *)
Definition findings (content : str) : list (level * msg) :=
  when (search_trailing_blank content) Error TrailingWhitespaceFound
  ++ when (search_blank_run 0 content) Error MultipleBlankLinesFound
  ++ heading_skips 1 (split_nl content) 0
  ++ when ((0 <? count_fences content)%nat
           && negb (count_fences content mod 2 =? 0)%nat)
          Error UnclosedCodeBlockFound
  ++ when (negb (str_eqb content []) && negb (endswith [LF] content))
          Warning ShouldEndWithNewline
  ++ when (str_eqb (strip content) []) Error FileIsEmpty
  ++ when (negb (str_eqb (strip content) [])
           && negb (startswith [HASH] (strip content)))
          Warning ShouldStartWithHeader.

(** The messages of [validate_all], which relays those of
    [validate_file]; [EmptyLine] is its bare [print()]. *)
Inductive run_msg :=
| FromFile (m : msg)
| ValidatingMarkdownFiles
| EmptyLine
| ValidationSummary
| FilesProcessed (processed : nat)
| FilesWithErrors (total_errors : nat)
| FilesWithWarnings (total_warnings : nat)
| AllFilesValid
| FoundFilesWithIssues (total_errors : nat).

(** What a run of [validate_all] acts on. *)
Record run := Run {
  disk_of : disk;
  console : list (level * run_msg)
}.


Section Methods.

(** [self.debug]. *)
Variable debug : bool.






End Methods.

End ValidatorReport.

(* ===================================================================== *)
(** ** [MarkdownManager.generate_template] *)
(* ===================================================================== *)

Module Templates.
Import Py.

(** A literal of the source, which is UTF-8, as a [str]. *)
Definition u8 (s : string) : str :=
  match decode (blit s) with
  | Some t => t
  | None => []
  end.

(** The three pieces of the f-string of lines 178-231, around
    [{timestamp}] and [{release_type}]. *)
Definition release_1 : string := "# Release

**Release Date:** ".

Definition release_2 : string := "  
**Release Type:** ".

Definition release_3 : string := "

## 🎯 What's New

This release includes various improvements and bug fixes.

## 🔧 Changes

- General improvements and bug fixes
- Enhanced CLI functionality
- Improved error handling

## 🚀 Installation

```bash
# Install the CLI
curl -fsSL https://raw.githubusercontent.com/fidenceio/manifest.cli/main/install-cli.sh | bash

# Or clone and install manually
git clone https://github.com/fidenceio/manifest.cli.git
cd manifest.cli
./install-cli.sh
```

## 📋 Usage

```bash
# Complete workflow
manifest go

# Version bump
manifest go patch

# Documentation
manifest docs
```

## 📚 Documentation

- [User Guide](docs/USER_GUIDE.md)
- [Command Reference](docs/COMMAND_REFERENCE.md)
- [Examples](docs/EXAMPLES.md)

## 🔗 Links

- [GitHub Repository](https://github.com/fidenceio/fidenceio.manifest.cli)
- [Issues](https://github.com/fidenceio/fidenceio.manifest.cli/issues)
- [Discussions](https://github.com/fidenceio/fidenceio.manifest.cli/discussions)

---
*Generated by Manifest CLI*".

(** The three pieces of the f-string of lines 236-272. *)
Definition changelog_1 : string := "# Changelog

**Release Date:** ".

Definition changelog_2 : string := "  
**Release Type:** ".

Definition changelog_3 : string := "

## 🆕 New Features

- Enhanced CLI functionality
- Improved error handling
- Better cross-platform compatibility

## 🔧 Improvements

- Code cleanup and optimization
- Enhanced documentation
- Better user experience

## 🐛 Bug Fixes

- Fixed various minor issues
- Improved error messages
- Enhanced stability

## 📚 Documentation

- Updated user guide
- Enhanced examples
- Improved command reference

## 🔄 Changes

- Updated dependencies
- Improved performance
- Enhanced security

---
*Generated by Manifest CLI*".

(** [args[0] if args else "patch"]. *)
Definition release_type_of (args : list str) : str :=
  match args with
  | a :: _ => a
  | [] => lit "patch"
  end.

(** [generate_template], lines 171-275; [timestamp] is what
    [datetime.now().strftime('%Y-%m-%d %H:%M:%S UTC')] gave. *)
Definition generate_template (timestamp : str) (template_type : str)
    (args : list str) : str :=
  if str_eqb template_type (lit "release") then
    let release_type := release_type_of args in
    u8 release_1 ++ timestamp ++ u8 release_2 ++ release_type ++ u8 release_3
  else if str_eqb template_type (lit "changelog") then
    let release_type := release_type_of args in
    u8 changelog_1 ++ timestamp ++ u8 changelog_2 ++ release_type
    ++ u8 changelog_3
  else lit "Unknown template type: " ++ template_type.

End Templates.

(** A release template as [print] writes it, and a file holding it. *)
Module TemplateScenarios.
Import Py Templates.

Definition noon : str := lit "2024-01-01 12:00:00 UTC".

Definition release_printed : str :=
  generate_template noon (lit "release") [] ++ [LF].

Definition release_md : bytes :=
  match encode release_printed with
  | Some bs => bs
  | None => []
  end.

End TemplateScenarios.

(* ===================================================================== *)
(** ** The primitives on small inputs *)
(* ===================================================================== *)

Module PyFacts.
Import Py.

(** Text mode translates ["a\r\nb\rc\r\r\n\n"] before [readlines] splits
    it: five lines, none with a carriage return. *)
Example readlines_translates :
  keepends <$> read_text (blit "a" ++ [x0d; x0a] ++ blit "b" ++ [x0d]
                          ++ blit "c" ++ [x0d; x0d; x0a; x0a])
  = Some [lit "a" ++ [LF]; lit "b" ++ [LF]; lit "c" ++ [LF]; [LF]; [LF]].
Proof. reflexivity. Qed.

(** Strict UTF-8: a stray byte, an overlong form and a surrogate are
    refused; U+2028 takes three bytes. *)
Example decode_strict :
  decode [xff] = None /\ decode [xc0; x80] = None
  /\ decode [xed; xa0; x80] = None
  /\ decode [xe2; x80; xa8] = Some [8232]
  /\ encode [8232] = Some [xe2; x80; xa8].
Proof. vm_compute. repeat split. Qed.

(** ["x \n".rstrip(' \t')] strips nothing, ["x \t".rstrip(' \t')] does;
    [rstrip()] also strips the newline. *)
Example rstrip_stops_at_newline :
  rstrip is_blank (lit "x " ++ [LF]) = lit "x " ++ [LF]
  /\ rstrip is_blank (lit "x " ++ [TAB]) = lit "x"
  /\ rstrip isspace (lit "x " ++ [LF]) = lit "x".
Proof. vm_compute. repeat split. Qed.

(** Runs of five and of three newlines become two; a run of two stays. *)
Example collapse_runs :
  sub_newline_runs 0 (lit "a" ++ [LF; LF; LF; LF; LF] ++ lit "b" ++ [LF; LF]
                      ++ lit "c" ++ [LF; LF; LF])
  = lit "a" ++ [LF; LF] ++ lit "b" ++ [LF; LF] ++ lit "c" ++ [LF; LF].
Proof. reflexivity. Qed.

(** Only whole lines of blanks are emptied, and their newline stays. *)
Example blank_lines_emptied :
  sub_blank_lines (lit " a" ++ [LF] ++ lit "  " ++ [LF; TAB; LF] ++ lit "b ")
  = lit " a" ++ [LF; LF; LF] ++ lit "b ".
Proof. reflexivity. Qed.

Example trailing_blank_found :
  search_trailing_blank (lit "a " ++ [LF] ++ lit "b") = true
  /\ search_trailing_blank (lit " a" ++ [LF] ++ lit " b") = false
  /\ search_trailing_blank (lit " ") = true.
Proof. vm_compute. repeat split. Qed.

Example blank_run_found :
  search_blank_run 0 (lit "a" ++ [LF; SP; LF; TAB; LF; LF] ++ lit "b") = true
  /\ search_blank_run 0 (lit "a" ++ [LF; LF; LF] ++ lit "b" ++ [LF]) = false.
Proof. vm_compute. repeat split. Qed.

Example heading_levels :
  match_heading (lit "## x") = Some 2%nat
  /\ match_heading (lit "##") = None
  /\ match_heading (lit "#x") = None
  /\ match_heading (lit " # x") = None.
Proof. vm_compute. repeat split. Qed.

(** A line of six backticks counts once, an indented fence not at all. *)
Example fences_counted :
  count_fences (lit "```" ++ [LF] ++ lit "``````" ++ [LF] ++ lit " ```"
                ++ [LF] ++ lit "```") = 3%nat.
Proof. reflexivity. Qed.

End PyFacts.

(* ===================================================================== *)
(** ** Properties of the cleanup tool *)
(* ===================================================================== *)

Module CleanupFacts.
Import Py Fs DocumentCleanup.

Lemma str_eqb_eq (s t : str) : str_eqb s t = true <-> s = t.
Proof.
  revert t; induction s as [|c s IH]; intros [|d t]; simpl; split;
    try congruence; try reflexivity.
  - intros H. apply andb_true_iff in H as [Hc Hs].
    apply N.eqb_eq in Hc. apply IH in Hs. congruence.
  - intros H. inversion H; subst. apply andb_true_iff. split.
    + apply N.eqb_refl.
    + apply IH. reflexivity.
Qed.

(** Joining the lines [readlines] returns gives the text back. *)
Lemma join0_keepends (s : str) : join0 (keepends s) = s.
Proof.
  unfold join0. induction s as [|c s IH]; simpl; [reflexivity|].
  destruct (c =? LF); simpl.
  - now rewrite IH.
  - destruct (keepends s) as [|l ls]; simpl in *.
    + now rewrite <- IH.
    + now rewrite <- IH.
Qed.

Lemma set_fs_id w : set_fs (fs w) w = w.
Proof. now destruct w. Qed.

Section Runs.

Variable debug : bool.
Variable clock : nat -> string.

Lemma log_run l m w : log debug l m w = (Return tt, logged debug l m w).
Proof. unfold log, logged. destruct (is_debug l && negb debug); reflexivity. Qed.

Lemma fs_logged l m w : fs (logged debug l m w) = fs w.
Proof. unfold logged. destruct (is_debug l && negb debug); reflexivity. Qed.

Lemma tick_logged l m w : tick (logged debug l m w) = tick w.
Proof. unfold logged. destruct (is_debug l && negb debug); reflexivity. Qed.

Lemma out_logged_old l m w e : e ∈ out w -> e ∈ out (logged debug l m w).
Proof.
  unfold logged. destruct (is_debug l && negb debug); simpl; [tauto|].
  intros H. apply elem_of_app. now left.
Qed.

Lemma out_logged_new l m w :
  is_debug l = false -> (l, m) ∈ out (logged debug l m w).
Proof.
  intros Hl. unfold logged. rewrite Hl. simpl.
  apply elem_of_app. right. apply list_elem_of_singleton. reflexivity.
Qed.

Lemma out_logged_inv l m w e :
  e ∈ out (logged debug l m w) -> e ∈ out w \/ e = (l, m).
Proof.
  unfold logged. destruct (is_debug l && negb debug); simpl; [tauto|].
  intros H. apply elem_of_app in H as [H|H]; [now left|].
  apply list_elem_of_singleton in H. now right.
Qed.

(** The loop of lines 136-151 returns the cleaned lines and only logs
    debug messages. *)
Lemma clean_lines_run (lines : list str) : forall n i w,
  exists w',
    clean_lines debug n i lines w = (Return (cleaned n i lines), w')
    /\ fs w' = fs w /\ tick w' = tick w
    /\ (forall e, e ∈ out w -> e ∈ out w')
    /\ (forall e, e ∈ out w' -> e ∈ out w \/ exists k, e = (Debug, ProcessingLine k)).
Proof.
  induction lines as [|line rest IH]; intros n i w; simpl.
  - exists w. repeat split; auto.
  - unfold bind at 1. rewrite log_run.
    destruct (IH n (S i) (logged debug Debug (ProcessingLine i) w))
      as (w' & Hrun & Hfs & Htick & Hold & Hnew).
    exists w'. unfold bind. rewrite Hrun. unfold ret.
    rewrite Hfs, Htick, fs_logged, tick_logged. repeat split; auto.
    + intros e He. apply Hold. now apply out_logged_old.
    + intros e He. apply Hnew in He as [He|He]; [|now right].
      apply out_logged_inv in He as [He|He]; [now left|right; eauto].
Qed.

Lemma ready_of_writable d : backup_dir_writable d -> backup_dir_ready d.
Proof. intros [H|H]; [left; eauto | right; exact H]. Qed.

Lemma mkdir_run d :
  backup_dir_ready d ->
  mkdir_exist_ok backup_dir d = (Return tt, after_mkdir d).
Proof.
  unfold mkdir_exist_ok, after_mkdir.
  intros [[bw H]|[H1 H2]].
  - rewrite H. reflexivity.
  - rewrite H1, H2. reflexivity.
Qed.

Lemma after_mkdir_other d q :
  q <> backup_dir -> after_mkdir d !! q = d !! q.
Proof.
  intros Hq. unfold after_mkdir. destruct (d !! backup_dir); [reflexivity|].
  rewrite lookup_insert_ne; congruence.
Qed.

Lemma after_mkdir_file d p c r w :
  backup_dir_ready d -> d !! p = Some (File c r w) ->
  after_mkdir d !! p = Some (File c r w).
Proof.
  intros Hd Hp. rewrite after_mkdir_other; [exact Hp|].
  intros ->. destruct Hd as [[bw H]|[H _]]; congruence.
Qed.

Lemma after_mkdir_dir d :
  backup_dir_writable d -> after_mkdir d !! backup_dir = Some (Dir true).
Proof.
  unfold after_mkdir. intros [H|[H _]]; rewrite H; [exact H|].
  apply lookup_insert_eq.
Qed.

(** [copy2] either raises and leaves the disk as it was, or writes the
    source's bytes and mode at its destination. *)
Lemma copy2_run (d : disk) src dst c r w :
  d !! src = Some (File c r w) ->
  (exists e, copy2 src dst d = (Raise e, d))
  \/ (exists dst',
        copy2 src dst d = (Return tt, <[dst' := File c r w]> d)
        /\ dst' <> src
        /\ (dst' = dst /\ (forall dw, d !! dst <> Some (Dir dw))
            \/ dst' = dst ++ [name src] /\ exists dw, d !! dst = Some (Dir dw))).
Proof.
  intros Hsrc. unfold copy2, bind, gets, id.
  set (dst' := match d !! dst with Some (Dir _) => dst ++ [name src] | _ => dst end).
  assert (Hdst' : dst' = dst /\ (forall dw, d !! dst <> Some (Dir dw))
            \/ dst' = dst ++ [name src] /\ exists dw, d !! dst = Some (Dir dw)).
  { subst dst'. destruct (d !! dst) as [[dw|? ? ?]|]; [right; eauto| left..];
      split; congruence. }
  rewrite Hsrc. case_bool_decide as Hsame.
  { left. eexists. reflexivity. }
  unfold read_bytes. rewrite Hsrc. destruct r.
  2:{ left. eexists. reflexivity. }
  unfold open_w.
  destruct (d !! dst') as [[dw|c' r' w']|] eqn:E.
  - left. eexists. reflexivity.
  - destruct w'.
    + right. exists dst'. unfold modify. rewrite insert_insert_eq. auto.
    + left. eexists. reflexivity.
  - destruct (d !! parent dst') as [[[|]|? ? ?]|].
    + right. exists dst'. unfold modify. rewrite insert_insert_eq. auto.
    + left. eexists. reflexivity.
    + left. eexists. reflexivity.
    + left. eexists. reflexivity.
Qed.

(** [create_backup] on a regular file, when the backup directory is
    ready: it returns, with no backup and the disk as [mkdir] left it, or
    with the backup path and the file's bytes copied. *)
Lemma create_backup_run w p bs r wr :
  fs w !! p = Some (File bs r wr) ->
  backup_dir_ready (fs w) ->
  let d1 := after_mkdir (fs w) in
  let b := backup_path_of p (clock (tick w)) in
  exists ob w1,
    create_backup debug clock p w = (Return ob, w1)
    /\ (forall e, e ∈ out w -> e ∈ out w1)
    /\ (forall e, e ∈ out w1 ->
          e ∈ out w \/ e = (Debug, BackupCreated b)
          \/ exists x, e = (Warning, CouldNotCreateBackup x))
    /\ ((ob = None /\ fs w1 = d1)
        \/ (exists dst',
              ob = Some b /\ fs w1 = <[dst' := File bs r wr]> d1
              /\ dst' <> p
              /\ (dst' = b /\ (forall dw, d1 !! b <> Some (Dir dw))
                  \/ dst' = b ++ [name p]
                     /\ exists dw, d1 !! b = Some (Dir dw)))).
Proof.
  intros Hp Hd d1 b.
  assert (Hp1 : d1 !! p = Some (File bs r wr))
    by (apply after_mkdir_file; assumption).
  unfold create_backup, bind at 1, on_disk at 1.
  rewrite (mkdir_run _ Hd). fold d1.
  unfold bind at 1, now. simpl. fold b.
  unfold try_except, bind at 1, on_disk at 1. simpl.
  destruct (copy2_run d1 p b bs r wr Hp1) as [[e He]|(dst' & He & Hne & Hdst)];
    rewrite He.
  - unfold bind, ret. rewrite log_run. eexists _, _. split; [reflexivity|].
    rewrite fs_logged. repeat split.
    + intros x Hx. now apply out_logged_old.
    + intros x Hx. apply out_logged_inv in Hx as [Hx|Hx]; eauto.
    + left; auto.
  - unfold bind, ret. rewrite log_run. eexists _, _. split; [reflexivity|].
    rewrite fs_logged. repeat split.
    + intros x Hx. now apply out_logged_old.
    + intros x Hx. apply out_logged_inv in Hx as [Hx|Hx]; eauto.
    + right. exists dst'. auto.
Qed.

(** [clean_file] on a regular file, past its two guards. *)
Lemma clean_file_enter w p nd cb :
  fs w !! p = Some nd -> (forall dw, nd <> Dir dw) ->
  clean_file debug clock p cb false w
  = (backup_path <- (if cb then create_backup debug clock p else ret None) ;;
     try_except (try_suite debug p backup_path)
                (except_suite debug p backup_path))
      (logged debug Info (Cleaning (name p)) w).
Proof.
  intros Hp Hnd. unfold clean_file.
  unfold bind at 1, on_disk at 1, exists_ at 1, gets. rewrite Hp. simpl.
  unfold bind at 1, on_disk at 1, is_file at 1, gets. rewrite !set_fs_id, Hp.
  destruct nd as [dw|c r wr]; [now elim (Hnd dw)|]. simpl.
  unfold bind at 1. rewrite log_run. reflexivity.
Qed.

(** The [try] suite on a file that can be read and decoded: it goes on,
    after the debug messages of the loop, with the comparison of line 166
    between [cleanup text] and [text]. *)
Lemma try_suite_read w p ob bs wr text :
  fs w !! p = Some (File bs true wr) ->
  read_text bs = Some text ->
  exists w1,
    fs w1 = fs w /\ tick w1 = tick w
    /\ (forall e, e ∈ out w -> e ∈ out w1)
    /\ (forall e, e ∈ out w1 ->
          e ∈ out w \/ exists k, e = (Debug, ProcessingLine k))
    /\ try_suite debug p ob w
       = ((if negb (str_eqb (cleanup text) text) then
             on_disk (write_text p (cleanup text)) ;;
             log debug Success FileCleaned ;;
             match ob with
             | Some b => log debug Info (BackupSaved b)
             | None => ret tt
             end
           else
             log debug Info NoChangesNeeded ;;
             match ob with
             | Some b => on_disk (unlink b)
             | None => ret tt
             end) ;;
          ret true) w1.
Proof.
  intros Hp Hread.
  destruct (clean_lines_run (keepends text) (length (keepends text)) 1 w)
    as (w1 & Hrun & Hfs & Htick & Hold & Hnew).
  exists w1. repeat split; auto.
  unfold try_suite.
  unfold bind at 1, on_disk at 1, readlines, bind at 1, read_bytes.
  rewrite Hp, Hread. unfold ret at 1.
  rewrite set_fs_id.
  unfold bind at 1. rewrite Hrun. rewrite join0_keepends. reflexivity.
Qed.

Lemma write_text_run (d : disk) p c r text bs :
  d !! p = Some (File c r true) -> encode text = Some bs ->
  write_text p text d = (Return tt, <[p := File bs r true]> d).
Proof.
  intros Hp Henc. unfold write_text, bind, open_w. rewrite Hp, Henc.
  unfold put_bytes, modify. rewrite lookup_insert_eq, insert_insert_eq.
  reflexivity.
Qed.

(** What [create_backup] leaves of a regular file it was asked to back
    up, whether or not the copy was made. *)
Lemma backup_keeps_file w p c r wr cb :
  fs w !! p = Some (File c r wr) ->
  (cb = true -> backup_dir_ready (fs w)) ->
  exists ob w1,
    (if cb then create_backup debug clock p else ret None) w = (Return ob, w1)
    /\ fs w1 !! p = Some (File c r wr)
    /\ (forall e, e ∈ out w -> e ∈ out w1)
    /\ (forall e, e ∈ out w1 ->
          e ∈ out w \/ (exists b, e = (Debug, BackupCreated b))
          \/ exists x, e = (Warning, CouldNotCreateBackup x)).
Proof.
  intros Hp Hd. destruct cb.
  - destruct (create_backup_run w p c r wr Hp (Hd eq_refl))
      as (ob & w1 & Hrun & Hold & Hnew & Hfs).
    exists ob, w1. repeat split; auto.
    + destruct Hfs as [[_ ->]|(dst' & _ & -> & Hne & _)].
      * apply after_mkdir_file; auto.
      * rewrite lookup_insert_ne by exact Hne. apply after_mkdir_file; auto.
    + intros e He. apply Hnew in He as [He|[He|He]]; eauto.
  - exists None, w. repeat split; auto.
Qed.

(** C10. [clean_file] on an existing, readable and writable zero-byte
    file does not leave it as it is: the transform maps the empty text to
    a single newline, which differs from the original, so the file is
    written with exactly one newline byte, "File cleaned" is reported and
    "No changes needed" is not. With backups requested, the backup
    directory is taken to be there or creatable. *)
Theorem clean_file_empty_file_rewritten w p cb :
  fs w !! p = Some (File [] true true) ->
  (cb = true -> backup_dir_ready (fs w)) ->
  cleanup [] = [LF]
  /\ exists w',
       clean_file debug clock p cb false w = (Return true, w')
       /\ fs w' !! p = Some (File [x0a] true true)
       /\ (Success, FileCleaned) ∈ out w'
       /\ ((Info, NoChangesNeeded) ∈ out w' -> (Info, NoChangesNeeded) ∈ out w).
Proof.
  intros Hp Hd. split; [reflexivity|].
  rewrite (clean_file_enter w p _ cb Hp) by discriminate.
  set (w0 := logged debug Info (Cleaning (name p)) w).
  assert (Hp0 : fs w0 !! p = Some (File [] true true))
    by (subst w0; now rewrite fs_logged).
  assert (Hd0 : cb = true -> backup_dir_ready (fs w0))
    by (subst w0; now rewrite fs_logged).
  destruct (backup_keeps_file w0 p _ _ _ cb Hp0 Hd0)
    as (ob & w1 & Hrun & Hp1 & Hold1 & Hnew1).
  unfold bind at 1. rewrite Hrun. unfold try_except.
  destruct (try_suite_read w1 p ob [] true [] Hp1 eq_refl)
    as (w2 & Hfs2 & _ & Hold2 & Hnew2 & ->).
  change (negb (str_eqb (cleanup []) [])) with true. cbv iota.
  unfold bind at 1, bind at 1, on_disk at 1.
  rewrite Hfs2 in *.
  rewrite (write_text_run (fs w1) p [] true (cleanup []) [x0a] Hp1 eq_refl).
  unfold bind at 1. rewrite log_run.
  set (w3 := logged debug Success FileCleaned (set_fs _ w2)).
  assert (Hp3 : fs w3 !! p = Some (File [x0a] true true)).
  { subst w3. rewrite fs_logged. simpl. apply lookup_insert_eq. }
  assert (Hin3 : (Success, FileCleaned) ∈ out w3).
  { subst w3. now apply out_logged_new. }
  assert (Hno3 : (Info, NoChangesNeeded) ∈ out w3 -> (Info, NoChangesNeeded) ∈ out w).
  { subst w3. intros H. apply out_logged_inv in H as [H|H]; [|discriminate].
    simpl in H. apply Hnew2 in H as [H|[k H]]; [|discriminate].
    apply Hnew1 in H as [H|[[b H]|[x H]]]; try discriminate.
    subst w0. apply out_logged_inv in H as [H|H]; [exact H|discriminate]. }
  destruct ob as [b|].
  - unfold bind, ret. rewrite log_run. eexists. split; [reflexivity|].
    rewrite fs_logged. repeat split; auto.
    + now apply out_logged_old.
    + intros H. apply out_logged_inv in H as [H|H]; [auto|discriminate].
  - unfold bind, ret. eexists. split; [reflexivity|]. auto.
Qed.

Lemma unlink_run (d : disk) b c r w :
  d !! b = Some (File c r w) -> d !! parent b = Some (Dir true) ->
  unlink b d = (Return tt, delete b d).
Proof. intros Hb Hpar. unfold unlink. now rewrite Hb, Hpar. Qed.

Lemma backup_path_not_dir p ts : backup_path_of p ts <> backup_dir.
Proof. discriminate. Qed.

(** C5. No-op detection. When the transformed content equals the
    original content of a readable file, [clean_file] returns [true]
    having written nothing (the file's entry is what it was), reports
    "No changes needed" and not "File cleaned", and a backup that this
    call's [create_backup] made is gone again from the disk; with no
    backup requested the disk is untouched. Backups, when requested, go
    to a backup directory whose entries can be removed, and no directory
    sits at the backup's own path. *)
Theorem clean_file_noop w p cb bs wr text :
  fs w !! p = Some (File bs true wr) ->
  read_text bs = Some text ->
  cleanup text = text ->
  (cb = true ->
   backup_dir_writable (fs w)
   /\ forall dw, fs w !! backup_path_of p (clock (tick w)) <> Some (Dir dw)) ->
  exists w',
    clean_file debug clock p cb false w = (Return true, w')
    /\ fs w' !! p = Some (File bs true wr)
    /\ (Info, NoChangesNeeded) ∈ out w'
    /\ ((Success, FileCleaned) ∈ out w' -> (Success, FileCleaned) ∈ out w)
    /\ (cb = false -> fs w' = fs w)
    /\ (forall b w1,
          cb = true ->
          create_backup debug clock p (logged debug Info (Cleaning (name p)) w)
          = (Return (Some b), w1) ->
          fs w1 !! b = Some (File bs true wr) /\ fs w' !! b = None).
Proof.
  intros Hp Hread Hfix Hd.
  rewrite (clean_file_enter w p _ cb Hp) by discriminate.
  set (w0 := logged debug Info (Cleaning (name p)) w).
  assert (Hfs0 : fs w0 = fs w) by (subst w0; apply fs_logged).
  assert (Ht0 : tick w0 = tick w) by (subst w0; apply tick_logged).
  assert (Hcl0 : (Success, FileCleaned) ∈ out w0 -> (Success, FileCleaned) ∈ out w).
  { subst w0. intros H. apply out_logged_inv in H as [H|H]; [auto|discriminate]. }
  assert (Heq : negb (str_eqb (cleanup text) text) = false).
  { apply negb_false_iff, str_eqb_eq, Hfix. }
  destruct cb.
  - destruct (Hd eq_refl) as [Hw Hnodir]. clear Hd.
    assert (Hp0 : fs w0 !! p = Some (File bs true wr)) by now rewrite Hfs0.
    assert (Hr0 : backup_dir_ready (fs w0))
      by (rewrite Hfs0; now apply ready_of_writable).
    destruct (create_backup_run w0 p bs true wr Hp0 Hr0)
      as (ob & w1 & Hrun & Hold1 & Hnew1 & Hcase).
    rewrite Ht0, Hfs0 in *.
    set (b := backup_path_of p (clock (tick w))) in *.
    set (d1 := after_mkdir (fs w)) in *.
    assert (Hp1 : d1 !! p = Some (File bs true wr))
      by (apply after_mkdir_file; auto; now apply ready_of_writable).
    unfold bind at 1. rewrite Hrun. unfold try_except.
    destruct Hcase as [[-> Hfs1]|(dst' & -> & Hfs1 & Hne & Hdst)].
    + rewrite <- Hfs1 in Hp1.
      destruct (try_suite_read w1 p None bs wr text Hp1 Hread)
        as (w2 & Hfs2 & _ & Hold2 & Hnew2 & ->).
      rewrite Heq. unfold bind, ret. rewrite log_run.
      eexists. split; [reflexivity|]. rewrite fs_logged, Hfs2.
      split_and!; auto.
      * now apply out_logged_new.
      * intros H. apply out_logged_inv in H as [H|H]; [|discriminate].
        apply Hnew2 in H as [H|[k H]]; [|discriminate].
        apply Hnew1 in H as [H|[H|[x H]]]; try discriminate. auto.
      * discriminate.
      * intros b' w1' _ H. discriminate H.
    + destruct Hdst as [[-> _]|[_ [dw Hdir]]].
      2:{ exfalso. apply (Hnodir dw). rewrite <- Hdir. subst d1.
          symmetry. apply after_mkdir_other, backup_path_not_dir. }
      assert (Hp1' : fs w1 !! p = Some (File bs true wr))
        by (rewrite Hfs1, lookup_insert_ne; auto).
      destruct (try_suite_read w1 p (Some b) bs wr text Hp1' Hread)
        as (w2 & Hfs2 & _ & Hold2 & Hnew2 & ->).
      rewrite Heq. unfold bind at 1, bind at 1. rewrite log_run.
      unfold on_disk. rewrite fs_logged, Hfs2.
      rewrite (unlink_run (fs w1) b bs true wr).
      2:{ rewrite Hfs1. apply lookup_insert_eq. }
      2:{ change (parent b) with backup_dir. rewrite Hfs1, lookup_insert_ne.
          - now apply after_mkdir_dir.
          - apply backup_path_not_dir. }
      unfold ret. eexists. split; [reflexivity|]. simpl.
      split_and!.
      * rewrite lookup_delete_ne by auto. exact Hp1'.
      * apply elem_of_app. right. now apply list_elem_of_singleton.
      * intros H. apply elem_of_app in H as [H|H].
        2:{ apply list_elem_of_singleton in H. discriminate. }
        apply Hnew2 in H as [H|[k H]]; [|discriminate].
        apply Hnew1 in H as [H|[H|[x H]]]; try discriminate. auto.
      * discriminate.
      * intros b' w1' _ H. injection H as <- <-.
        split; [rewrite Hfs1; apply lookup_insert_eq | apply lookup_delete_eq].
  - unfold bind at 1, ret at 1. unfold try_except.
    assert (Hp0 : fs w0 !! p = Some (File bs true wr)) by now rewrite Hfs0.
    destruct (try_suite_read w0 p None bs wr text Hp0 Hread)
      as (w2 & Hfs2 & _ & Hold2 & Hnew2 & ->).
    rewrite Heq. unfold bind, ret. rewrite log_run.
    eexists. split; [reflexivity|]. rewrite fs_logged, Hfs2, Hfs0.
    split_and!; auto.
    + now apply out_logged_new.
    + intros H. apply out_logged_inv in H as [H|H]; [|discriminate].
      apply Hnew2 in H as [H|[k H]]; [auto|discriminate].
    + discriminate.
Qed.

(** The [try] suite on a file whose bytes are not UTF-8: the read raises
    and nothing has changed. *)
Lemma try_suite_undecodable w p ob bs wr :
  fs w !! p = Some (File bs true wr) ->
  read_text bs = None ->
  try_suite debug p ob w = (Raise UnicodeDecodeError, w).
Proof.
  intros Hp Hread. unfold try_suite.
  unfold bind at 1, on_disk at 1, readlines, bind at 1, read_bytes.
  rewrite Hp, Hread. unfold raise. now rewrite set_fs_id.
Qed.

(** The restoring path of the [except] suite when the restoring copy goes
    through. A readable and writable file that is not UTF-8 makes the
    read raise; [clean_file] then returns [false] and the file holds the
    bytes it held before, restored from the backup when one was made. *)
Lemma clean_file_undecodable_restored w p cb bs :
  fs w !! p = Some (File bs true true) ->
  read_text bs = None ->
  (cb = true ->
   backup_dir_ready (fs w)
   /\ forall dw, fs w !! backup_path_of p (clock (tick w)) <> Some (Dir dw)) ->
  exists w',
    clean_file debug clock p cb false w = (Return false, w')
    /\ fs w' !! p = Some (File bs true true).
Proof.
  intros Hp Hread Hd.
  rewrite (clean_file_enter w p _ cb Hp) by discriminate.
  set (w0 := logged debug Info (Cleaning (name p)) w).
  assert (Hfs0 : fs w0 = fs w) by (subst w0; apply fs_logged).
  assert (Ht0 : tick w0 = tick w) by (subst w0; apply tick_logged).
  assert (Hp0 : fs w0 !! p = Some (File bs true true)) by now rewrite Hfs0.
  destruct cb.
  - destruct (Hd eq_refl) as [Hr Hnodir]. clear Hd.
    assert (Hr0 : backup_dir_ready (fs w0)) by now rewrite Hfs0.
    destruct (create_backup_run w0 p bs true true Hp0 Hr0)
      as (ob & w1 & Hrun & _ & _ & Hcase).
    rewrite Ht0, Hfs0 in *.
    set (b := backup_path_of p (clock (tick w))) in *.
    set (d1 := after_mkdir (fs w)) in *.
    assert (Hp1 : d1 !! p = Some (File bs true true))
      by (apply after_mkdir_file; auto).
    unfold bind at 1. rewrite Hrun. unfold try_except.
    destruct Hcase as [[-> Hfs1]|(dst' & -> & Hfs1 & Hne & Hdst)].
    + rewrite <- Hfs1 in Hp1.
      rewrite (try_suite_undecodable w1 p None bs true Hp1 Hread).
      unfold except_suite, bind, ret. rewrite log_run.
      eexists. split; [reflexivity|]. now rewrite fs_logged.
    + destruct Hdst as [[-> _]|[_ [dw Hdir]]].
      2:{ exfalso. apply (Hnodir dw). rewrite <- Hdir. subst d1.
          symmetry. apply after_mkdir_other, backup_path_not_dir. }
      assert (Hp1' : fs w1 !! p = Some (File bs true true))
        by (rewrite Hfs1, lookup_insert_ne; auto).
      assert (Hb1 : fs w1 !! b = Some (File bs true true))
        by (rewrite Hfs1; apply lookup_insert_eq).
      rewrite (try_suite_undecodable w1 p (Some b) bs true Hp1' Hread).
      unfold except_suite. unfold bind at 1. rewrite log_run.
      unfold bind at 1, bind at 1, on_disk at 1, exists_, gets.
      rewrite fs_logged, Hb1. cbv iota.
      unfold bind at 1, on_disk at 1. simpl fs.
      destruct (copy2_run (fs w1) b p bs true true Hb1)
        as [[e He]|(dst' & He & _ & [[-> _]|[_ [dw Hdir]]])].
      * exfalso. revert He. unfold copy2, bind, gets, id.
        rewrite Hp1', Hb1. case_bool_decide; [congruence|].
        unfold read_bytes, open_w. rewrite Hb1, Hp1'. discriminate.
      * rewrite He. unfold ret. rewrite log_run.
        eexists. split; [reflexivity|]. rewrite fs_logged. simpl.
        apply lookup_insert_eq.
      * congruence.
  - unfold bind at 1, ret at 1, try_except.
    rewrite (try_suite_undecodable w0 p None bs true Hp0 Hread).
    unfold except_suite, bind, ret. rewrite log_run.
    eexists. split; [reflexivity|]. now rewrite fs_logged.
Qed.

End Runs.

Import Scenarios.

(** *** Instances of the two general theorems *)

(** [clean_file_noop] at a clean file ["ok\n"], with a backup. *)
Lemma clean_file_noop_witness :
  exists w',
    clean_file false stamp a_txt true false
      (start (tree1 a_txt (blit "ok" ++ [x0a]) true true)) = (Return true, w')
    /\ fs w' !! a_txt = Some (File (blit "ok" ++ [x0a]) true true)
    /\ (Info, NoChangesNeeded) ∈ out w'.
Proof.
  destruct (clean_file_noop false stamp
              (start (tree1 a_txt (blit "ok" ++ [x0a]) true true))
              a_txt true (blit "ok" ++ [x0a]) true (lit "ok" ++ [LF]))
    as (w' & Hrun & Hfile & Hmsg & _).
  - reflexivity.
  - reflexivity.
  - reflexivity.
  - intros _. split.
    + right. split; reflexivity.
    + intros dw. vm_compute. discriminate.
  - exists w'. auto.
Defined.

(** [clean_file_empty_file_rewritten] at an empty [a.txt], with a backup. *)
Lemma clean_file_empty_file_rewritten_witness :
  exists w',
    clean_file false stamp a_txt true false
      (start (tree1 a_txt [] true true)) = (Return true, w')
    /\ fs w' !! a_txt = Some (File [x0a] true true)
    /\ (Success, FileCleaned) ∈ out w'.
Proof.
  destruct (clean_file_empty_file_rewritten false stamp
              (start (tree1 a_txt [] true true)) a_txt true)
    as (_ & w' & Hrun & Hfile & Hmsg & _).
  - reflexivity.
  - intros _. right. split; reflexivity.
  - exists w'. auto.
Defined.

(** *** The transform on concrete files *)

(** C1 at ["a\n\n \n\nb\n"]. The blank-only line is emptied after the
    newline runs were collapsed, so one pass leaves four newlines in a
    row and a second pass collapses them: the transform applied to its
    own output gives something else, and [clean_file] run on the file it
    has just cleaned writes it again and reports "File cleaned". *)
Theorem cleanup_twice_differs :
  read_text blank_between = Some blank_between_text
  /\ cleanup blank_between_text = lit "a" ++ [LF; LF; LF; LF] ++ lit "b" ++ [LF]
  /\ cleanup (cleanup blank_between_text) = lit "a" ++ [LF; LF] ++ lit "b" ++ [LF]
  /\ cleanup (cleanup blank_between_text) <> cleanup blank_between_text
  /\ let run := clean_file false stamp a_txt false false in
     let first := run (start (tree1 a_txt blank_between true true)) in
     let second := run (again (snd first)) in
     fst first = Return true
     /\ fs (snd first) !! a_txt = Some (File four_newlines true true)
     /\ fst second = Return true
     /\ fs (snd second) !! a_txt = Some (File two_newlines true true)
     /\ out (snd second) = [(Info, Cleaning "a.txt"); (Success, FileCleaned)].
Proof.
  vm_compute. split_and!; try reflexivity. discriminate.
Qed.

(** C2 at ["Line1   \n"], the first of two lines. [readlines] hands the
    line over with its newline, so [rstrip(' \t')] finds no blank at its
    end: the cleaned line is the line itself, three spaces before the
    newline included, and the whole transform keeps them too. *)
Theorem clean_line_keeps_trailing_blanks :
  keepends (line1 ++ lit "x" ++ [LF]) = [line1; lit "x" ++ [LF]]
  /\ rstrip is_blank line1 = line1
  /\ clean_line 2 1 line1 = line1
  /\ endswith [SP; LF] (clean_line 2 1 line1) = true
  /\ cleanup (line1 ++ lit "x" ++ [LF]) = line1 ++ lit "x" ++ [LF].
Proof.
  vm_compute. split_and!; reflexivity.
Qed.

(** C3. [clean_file] on the end-to-end example of the spec writes
    ["Line1   \nLine2\n\nLine3\n"]: the three spaces after [Line1] stay,
    and the result is not the content the spec expects. *)
Theorem end_to_end_keeps_spaces :
  let run := clean_file false stamp a_txt false false
               (start (tree1 a_txt end_to_end true true)) in
  fst run = Return true
  /\ fs (snd run) !! a_txt = Some (File end_to_end_actual true true)
  /\ end_to_end_actual <> end_to_end_expected
  /\ (cleanup <$> read_text end_to_end) = decode end_to_end_actual.
Proof.
  vm_compute. split_and!; try reflexivity. discriminate.
Qed.

(** C4 at a tree whose first file may be read but not written. The
    backup of [a.txt] is made, the write raises [PermissionError], and so
    does the restoring copy inside the [except] suite: [clean_file] raises
    instead of returning [false], [clean_all] is left through the same
    exception, and [b.txt], next in the batch, is never looked at. *)
Theorem read_only_file_aborts_batch (rmtree : path -> io disk unit) :
  let one := clean_file false stamp a_txt true false (start read_only_first) in
  let all := clean_all false stamp rmtree [a_txt; b_txt] true false false
               (start read_only_first) in
  fst one = Raise PermissionError
  /\ fs (snd one) !! a_txt_backup = Some (File (blit "x  ") true false)
  /\ fst all = Raise PermissionError
  /\ fs (snd all) !! b_txt = Some (File (blit "y  ") true true)
  /\ out (snd all)
     = [(Info, CleaningFiles); (Info, Cleaning "a.txt");
        (Error, ErrorCleaningFile a_txt PermissionError)].
Proof.
  vm_compute. split_and!; reflexivity.
Qed.

(** C6 at ["a\r\nb\r\n"] and at ["a\rb\r"]. Text mode hands both over
    as ["a\nb\n"], which the transform leaves as it is; the comparison of
    line 166 sees no change, nothing is written, and the carriage returns
    stay on disk after a pass that returned [true]. *)
Theorem crlf_file_left_as_is :
  let run := fun c => clean_file false stamp a_txt false false
                        (start (tree1 a_txt c true true)) in
  read_text crlf = Some (lit "a" ++ [LF] ++ lit "b" ++ [LF])
  /\ fst (run crlf) = Return true
  /\ fs (snd (run crlf)) !! a_txt = Some (File crlf true true)
  /\ out (snd (run crlf)) = [(Info, Cleaning "a.txt"); (Info, NoChangesNeeded)]
  /\ fst (run bare_cr) = Return true
  /\ fs (snd (run bare_cr)) !! a_txt = Some (File bare_cr true true)
  /\ In x0d crlf.
Proof.
  vm_compute. split_and!; try reflexivity. auto.
Qed.

(** A copy that fails is contained: the source may not be read, the
    [except] of line 102 logs the warning and [None] is returned. *)
Example create_backup_copy_fails :
  let run := create_backup false stamp a_txt
               (start (tree1 a_txt (blit "x") false true)) in
  fst run = Return None
  /\ out (snd run) = [(Warning, CouldNotCreateBackup PermissionError)].
Proof. vm_compute. split; reflexivity. Qed.

(** A read that fails is contained when the restoring copy goes
    through: [a.txt] is not UTF-8 but writable, so [clean_file] restores
    it from the backup and returns [false]; [clean_all] goes on, cleans
    [b.txt], and returns [false]. *)
Example decode_error_is_contained (rmtree : path -> io disk unit) :
  let all := clean_all false stamp rmtree [a_txt; b_txt] true false false
               (start (tree2 a_txt [xff] true true
                             b_txt (blit "y  ") true true)) in
  fst all = Return false
  /\ fs (snd all) !! a_txt = Some (File [xff] true true)
  /\ fs (snd all) !! b_txt = Some (File (blit "y" ++ [x0a]) true true)
  /\ out (snd all)
     = [(Info, CleaningFiles); (Info, Cleaning "a.txt");
        (Error, ErrorCleaningFile a_txt UnicodeDecodeError);
        (Warning, RestoredFromBackup); (Info, Blank);
        (Info, Cleaning "b.txt"); (Success, FileCleaned);
        (Info, BackupSaved (backup_path_of b_txt (stamp 1)));
        (Info, Blank); (Success, Cleaned 1 2);
        (Info, BackupsStoredIn backup_dir)].
Proof. vm_compute. split_and!; reflexivity. Qed.

(** C7 at a tree where a regular file is named [.document-backups], and
    at a working directory that takes no new entry. The [mkdir] of line
    94 stands outside the [try], so what it raises leaves
    [create_backup]: no path and no [None] is returned, no warning
    logged. *)
Theorem create_backup_raises :
  create_backup false stamp a_txt (start blocked_backup_dir)
  = (Raise FileExistsError, start blocked_backup_dir)
  /\ create_backup false stamp a_txt (start read_only_cwd)
     = (Raise PermissionError, start read_only_cwd).
Proof.
  split; reflexivity.
Qed.

End CleanupFacts.

(* ===================================================================== *)
(** ** Properties of the markdown validator *)
(* ===================================================================== *)

Module ValidatorFacts.
Import Py Fs MarkdownManager.

Lemma world_eta w : World (fs w) (out w) = w.
Proof. now destruct w. Qed.

Lemma skip_findings_app o1 o2 :
  skip_findings (o1 ++ o2) = skip_findings o1 ++ skip_findings o2.
Proof.
  induction o1 as [|[l m] o1 IH]; simpl; [reflexivity|].
  destruct m; simpl; now rewrite ?IH.
Qed.

(** *** Texts made of white space only *)

Lemma universal_newlines_all_space (t : str) :
  forallb isspace t = true -> forallb isspace (universal_newlines t) = true.
Proof.
  assert (H : forall n (t : str), (length t <= n)%nat ->
            forallb isspace t = true ->
            forallb isspace (universal_newlines t) = true).
  { clear t. induction n as [|n IH]; intros [|c t] Hlen Hall; simpl in *;
      try reflexivity; try lia.
    apply andb_true_iff in Hall as [Hc Ht].
    destruct (c =? CR).
    - simpl. destruct t as [|d t]; [reflexivity|].
      simpl in Ht, Hlen. apply andb_true_iff in Ht as [Hd Ht'].
      destruct (d =? LF).
      + apply IH; [lia|exact Ht'].
      + apply IH; [simpl; lia|]. simpl. now rewrite Hd, Ht'.
    - simpl. rewrite Hc. apply IH; [lia|exact Ht]. }
  apply (H (length t)). lia.
Qed.

Lemma split_nl_all_space (s : str) :
  forallb isspace s = true ->
  Forall (fun l => forallb isspace l = true) (split_nl s).
Proof.
  induction s as [|c s IH]; simpl; intros Hall.
  - repeat constructor.
  - apply andb_true_iff in Hall as [Hc Hs]. specialize (IH Hs).
    destruct (c =? LF).
    + constructor; [reflexivity|exact IH].
    + destruct (split_nl s) as [|l ls].
      * repeat constructor. simpl. now rewrite Hc.
      * inversion IH; subst. constructor; [|assumption].
        simpl. now rewrite Hc.
Qed.

Lemma isspace_not_hash c : isspace c = true -> (c =? HASH) = false.
Proof.
  intros H. destruct (c =? HASH) eqn:E; [|reflexivity].
  apply N.eqb_eq in E. subst c. discriminate H.
Qed.

Lemma isspace_not_backtick c : isspace c = true -> (BACKTICK =? c) = false.
Proof.
  intros H. destruct (BACKTICK =? c) eqn:E; [|reflexivity].
  apply N.eqb_eq in E. subst c. discriminate H.
Qed.

Lemma match_heading_all_space (l : str) :
  forallb isspace l = true -> match_heading l = None.
Proof.
  destruct l as [|c l]; [reflexivity|]. simpl. intros H.
  apply andb_true_iff in H as [Hc _].
  unfold match_heading. simpl. now rewrite (isspace_not_hash c Hc).
Qed.

Lemma headings_from_all_space (lines : list str) : forall n,
  Forall (fun l => forallb isspace l = true) lines ->
  headings_from n lines = [].
Proof.
  induction lines as [|l ls IH]; intros n H; [reflexivity|].
  inversion H; subst. simpl.
  rewrite match_heading_all_space by assumption. now apply IH.
Qed.

Lemma no_fence_all_space (lines : list str) :
  Forall (fun l => forallb isspace l = true) lines ->
  List.filter (startswith [BACKTICK; BACKTICK; BACKTICK]) lines = [].
Proof.
  induction 1 as [|l ls Hl _ IH]; [reflexivity|].
  destruct l as [|c l]; [exact IH|].
  simpl in Hl. apply andb_true_iff in Hl as [Hc _].
  cbn [List.filter startswith].
  rewrite (isspace_not_backtick c Hc). exact IH.
Qed.

Lemma rstrip_all (p : char -> bool) (s : str) :
  forallb p s = true -> rstrip p s = [].
Proof.
  induction s as [|c s IH]; [reflexivity|]. simpl. intros H.
  apply andb_true_iff in H as [Hc Hs]. now rewrite (IH Hs), Hc.
Qed.

Lemma strip_all_space (s : str) : forallb isspace s = true -> strip s = [].
Proof. intros H. unfold strip. now rewrite rstrip_all. Qed.

Section Runs.

Variable debug : bool.

Lemma report_run l m w : log debug l m w = (Return tt, logged debug l m w).
Proof. unfold log, logged. destruct (is_debug l && negb debug); reflexivity. Qed.

(** One check of [validate_file]: a counter goes up by one, with a
    message, when the condition holds. *)
Lemma check_run (c : bool) l m (n : nat) w :
  is_debug l = false ->
  (if c then log debug l m ;; ret (n + 1)%nat else ret n) w
  = (Return (n + Nat.b2n c)%nat,
     World (fs w) (out w ++ if c then [(l, m)] else [])).
Proof.
  intros Hl. destruct c; simpl.
  - unfold bind, ret. rewrite report_run. unfold logged. rewrite Hl. reflexivity.
  - unfold ret. now rewrite Nat.add_0_r, app_nil_r, world_eta.
Qed.

(** Check 3 flags what the rule of [skips] flags, and counts it. *)
Lemma check_headings_run (lines : list str) : forall line_num prev e w,
  exists w',
    check_headings debug line_num lines prev e w
    = (Return (e + length (skips prev (headings_from line_num lines)))%nat, w')
    /\ fs w' = fs w
    /\ skip_findings (out w')
       = skip_findings (out w) ++ skips prev (headings_from line_num lines)
    /\ (forall x, x ∈ out w -> x ∈ out w')
    /\ (forall x, x ∈ out w' ->
          x ∈ out w \/ exists k t, x = (Error, HeadingLevelSkipped k t)).
Proof.
  induction lines as [|line rest IH]; intros line_num prev e w; simpl.
  - exists w. unfold ret. rewrite Nat.add_0_r, app_nil_r. split_and!; auto.
  - destruct (match_heading line) as [cur|]; [|apply IH].
    unfold bind at 1.
    rewrite (check_run (prev + 1 <? cur)%nat Error
               (HeadingLevelSkipped line_num (strip line)) e w eq_refl).
    match goal with |- context [check_headings _ _ _ _ ?e' ?w1] =>
      destruct (IH (S line_num) cur e' w1) as (w' & Hrun & Hfs & Hsk & Hold & Hnew)
    end.
    exists w'. rewrite Hrun. simpl in *. split_and!.
    + f_equal. f_equal. rewrite length_app.
      destruct (prev + 1 <? cur)%nat; simpl; lia.
    + exact Hfs.
    + rewrite Hsk, skip_findings_app, <- app_assoc. f_equal. f_equal.
      destruct (prev + 1 <? cur)%nat; reflexivity.
    + intros x Hx. apply Hold, elem_of_app. now left.
    + intros x Hx. apply Hnew in Hx as [Hx|Hx]; [|now right].
      apply elem_of_app in Hx as [Hx|Hx]; [now left|right].
      destruct (prev + 1 <? cur)%nat.
      * apply list_elem_of_singleton in Hx. eauto.
      * inversion Hx.
Qed.

Lemma skip_findings_check o (c : bool) l m :
  skip_findings [(l, m)] = [] ->
  skip_findings (o ++ if c then [(l, m)] else []) = skip_findings o.
Proof.
  intros H. rewrite skip_findings_app. destruct c; [rewrite H|];
    apply app_nil_r.
Qed.

(** The checks of lines 90-142 on a text: the error count is one per
    check that fires plus one per heading flagged, and the heading-skip
    findings are those of the rule of [skips] from level 0. *)
Lemma validate_content_run file_name content w :
  exists warnings w',
    validate_content debug file_name content w
    = (Return
         (0 + Nat.b2n (search_trailing_blank content)
          + Nat.b2n (search_blank_run 0 content)
          + length (skips 0 (headings content))
          + Nat.b2n ((0 <? count_fences content)
                     && negb (count_fences content mod 2 =? 0))
          + Nat.b2n (str_eqb (strip content) []),
          warnings)%nat, w')
    /\ fs w' = fs w
    /\ skip_findings (out w')
       = skip_findings (out w) ++ skips 0 (headings content)
    /\ (str_eqb (strip content) [] = true -> (Error, FileIsEmpty) ∈ out w').
Proof.
  unfold validate_content.
  unfold bind at 1. rewrite report_run.
  unfold bind at 1. rewrite check_run by reflexivity.
  unfold bind at 1. rewrite check_run by reflexivity.
  unfold bind at 1.
  match goal with |- context [check_headings _ _ _ _ ?e ?w1] =>
    destruct (check_headings_run (split_nl content) 1 0 e w1)
      as (w3 & -> & Hfs3 & Hsk3 & Hold3 & Hnew3)
  end.
  fold (headings content) in *.
  unfold bind at 1. rewrite check_run by reflexivity.
  unfold bind at 1. rewrite check_run by reflexivity.
  unfold bind at 1. rewrite check_run by reflexivity.
  unfold bind at 1. rewrite check_run by reflexivity.
  match goal with |- context [bind ?m _ ?w6] =>
    assert (Hrep : exists x, m w6 = (Return tt, World (fs w6) (out w6 ++ [x]))
                             /\ skip_findings [x] = [])
  end.
  { repeat match goal with |- context [if ?c then _ else _] => destruct c end;
      rewrite report_run; eexists; split; reflexivity. }
  destruct Hrep as (x & Hrep & Hx).
  unfold bind, ret. rewrite Hrep. eexists _, _. split; [reflexivity|].
  simpl fs. simpl out. split_and!.
  - rewrite Hfs3. reflexivity.
  - rewrite skip_findings_app, Hx, app_nil_r.
    rewrite !skip_findings_check by reflexivity.
    rewrite Hsk3. simpl out.
    rewrite !skip_findings_check by reflexivity.
    unfold logged. simpl. rewrite skip_findings_app. simpl.
    now rewrite app_nil_r.
  - intros ->. apply elem_of_app. left. apply elem_of_app. left.
    apply elem_of_app. right. now apply list_elem_of_singleton.
Qed.

(** [validate_file] on a file it can read and decode runs the checks on
    the text read. *)
Lemma validate_file_read w p bs wr content :
  fs w !! p = Some (File bs true wr) ->
  read_text bs = Some content ->
  validate_file debug p w = validate_content debug (name p) content w.
Proof.
  intros Hp Hread. unfold validate_file.
  unfold bind at 1, on_disk at 1, exists_, gets. rewrite Hp, world_eta. simpl.
  unfold bind at 1, on_disk at 1, is_file, gets. rewrite Hp, world_eta. simpl.
  unfold bind at 1, try_except, bind at 1, on_disk, read_text_file, bind at 1,
    read_bytes.
  rewrite Hp, Hread. unfold ret at 1. rewrite world_eta. reflexivity.
Qed.

(** [validate_file] on a file it may not read reports one error. *)
Lemma validate_file_unreadable w p bs wr :
  fs w !! p = Some (File bs false wr) ->
  exists w', validate_file debug p w = (Return (1, 0)%nat, w').
Proof.
  intros Hp. unfold validate_file.
  unfold bind at 1, on_disk at 1, exists_, gets. rewrite Hp, world_eta. simpl.
  unfold bind at 1, on_disk at 1, is_file, gets. rewrite Hp, world_eta. simpl.
  unfold bind at 1, try_except, bind at 1, on_disk, read_text_file, bind at 1,
    read_bytes.
  rewrite Hp. unfold bind, ret. rewrite report_run. eexists. reflexivity.
Qed.

(** C9. Heading hierarchy. For the text read from any readable file,
    the heading-skip findings [validate_file] adds to the console are
    those of the rule that starts from previous level 0 and replaces it
    after every heading, flagged or not ([skips]). Hence headings at
    levels 1, 2, 3 add no finding, and headings at levels 1, 3 add
    exactly one, carrying the line number of the level-3 heading; a
    level-4 heading after them adds none, the flagged level 3 having
    become the previous level. *)
Theorem heading_hierarchy w p bs wr content :
  fs w !! p = Some (File bs true wr) ->
  read_text bs = Some content ->
  exists r w',
    validate_file debug p w = (Return r, w')
    /\ skip_findings (out w')
       = skip_findings (out w) ++ skips 0 (headings content)
    /\ (map snd (headings content) = [1; 2; 3]%nat ->
        skip_findings (out w') = skip_findings (out w))
    /\ (forall i j, headings content = [(i, 1); (j, 3)]%nat ->
        skip_findings (out w') = skip_findings (out w) ++ [j])
    /\ (forall i j k, headings content = [(i, 1); (j, 3); (k, 4)]%nat ->
        skip_findings (out w') = skip_findings (out w) ++ [j]).
Proof.
  intros Hp Hread. rewrite (validate_file_read w p bs wr content Hp Hread).
  destruct (validate_content_run (name p) content w)
    as (warnings & w' & Hrun & _ & Hsk & _).
  eexists _, w'. split; [exact Hrun|]. split_and!.
  - exact Hsk.
  - intros H. rewrite Hsk.
    destruct (headings content) as [|[i a] [|[j b] [|[k c] [|? ?]]]];
      try discriminate.
    injection H as -> -> ->. simpl. now rewrite app_nil_r.
  - intros i j H. rewrite Hsk, H. reflexivity.
  - intros i j k H. rewrite Hsk, H. reflexivity.
Qed.

(** C8, as the code has it. A file that decodes to white space only
    (a zero-length file is one) gets the "File is empty" error, and the
    other checks still run: the error count is 1, plus 1 when a space or
    tab ends a line, plus 1 when four newlines stand in one run of white
    space. So it lies between 1 and 3, and is exactly 1 for a zero-length
    file, readable or not. *)
Theorem empty_file_errors w p bs r wr t :
  fs w !! p = Some (File bs r wr) ->
  decode bs = Some t ->
  forallb isspace t = true ->
  exists errors warnings w',
    validate_file debug p w = (Return (errors, warnings), w')
    /\ (bs = [] -> errors = 1%nat)
    /\ (r = true ->
        errors = (1 + Nat.b2n (search_trailing_blank (universal_newlines t))
                  + Nat.b2n (search_blank_run 0 (universal_newlines t)))%nat
        /\ (Error, FileIsEmpty) ∈ out w')
    /\ (1 <= errors <= 3)%nat.
Proof.
  intros Hp Hdec Hall. destruct r.
  - assert (Hread : read_text bs = Some (universal_newlines t))
      by (unfold read_text; now rewrite Hdec).
    set (content := universal_newlines t) in *.
    assert (Hc : forallb isspace content = true)
      by now apply universal_newlines_all_space.
    rewrite (validate_file_read w p bs wr content Hp Hread).
    destruct (validate_content_run (name p) content w)
      as (warnings & w' & Hrun & _ & _ & Hempty).
    pose proof (split_nl_all_space content Hc) as Hlines.
    unfold headings, count_fences in Hrun.
    rewrite (headings_from_all_space _ 1 Hlines) in Hrun.
    rewrite (no_fence_all_space _ Hlines) in Hrun.
    rewrite (strip_all_space content Hc) in Hrun, Hempty.
    simpl in Hrun. rewrite !Nat.add_0_r in Hrun.
    eexists _, warnings, w'. split; [exact Hrun|]. split_and!.
    + intros ->. injection Hdec as <-. reflexivity.
    + intros _. split; [|now apply Hempty].
      destruct (search_trailing_blank content), (search_blank_run 0 content);
        reflexivity.
    + destruct (search_trailing_blank content), (search_blank_run 0 content);
        simpl; lia.
    + destruct (search_trailing_blank content), (search_blank_run 0 content);
        simpl; lia.
  - destruct (validate_file_unreadable w p bs wr Hp) as (w' & Hrun).
    exists 1%nat, 0%nat, w'. split; [exact Hrun|]. split_and!; auto.
    discriminate.
Qed.

End Runs.

Import Scenarios.

(** [heading_hierarchy] at ["# A\n### C\n"]: one finding, at line 2. *)
Lemma heading_hierarchy_witness :
  exists r w',
    validate_file false a_md
      (start_md (tree1 a_md (blit "# A" ++ [x0a] ++ blit "### C" ++ [x0a])
                       true true)) = (Return r, w')
    /\ skip_findings (out w') = [2%nat].
Proof.
  destruct (heading_hierarchy false
              (start_md (tree1 a_md (blit "# A" ++ [x0a] ++ blit "### C" ++ [x0a])
                               true true))
              a_md (blit "# A" ++ [x0a] ++ blit "### C" ++ [x0a]) true
              (lit "# A" ++ [LF] ++ lit "### C" ++ [LF]))
    as (r & w' & Hrun & _ & _ & Hone & _).
  - reflexivity.
  - reflexivity.
  - exists r, w'. split; [exact Hrun|]. apply (Hone 1%nat 2%nat). reflexivity.
Defined.

(** [empty_file_errors] at a file holding one space: two errors. *)
Lemma empty_file_errors_witness :
  exists errors warnings w',
    validate_file false a_md (start_md (tree1 a_md (blit " ") true true))
    = (Return (errors, warnings), w')
    /\ errors = 2%nat.
Proof.
  destruct (empty_file_errors false
              (start_md (tree1 a_md (blit " ") true true))
              a_md (blit " ") true true (lit " "))
    as (errors & warnings & w' & Hrun & _ & Hcount & _).
  - reflexivity.
  - reflexivity.
  - reflexivity.
  - exists errors, warnings, w'. split; [exact Hrun|].
    destruct (Hcount eq_refl) as [-> _]. reflexivity.
Defined.

(** C8 as stated fails at a file holding one space: the file is white
    space only, the trailing-whitespace check fires as well as the
    empty-file check, and the error count is 2, not 1. *)
Lemma one_space_file_two_errors :
  let run := validate_file false a_md
               (start_md (tree1 a_md (blit " ") true true)) in
  decode (blit " ") = Some (lit " ")
  /\ forallb isspace (lit " ") = true
  /\ fst run = Return (2, 1)%nat
  /\ (forall warnings, fst run <> Return (1, warnings)%nat).
Proof.
  vm_compute. split_and!; try reflexivity. intros warnings H. discriminate H.
Qed.

End ValidatorFacts.

(* ===================================================================== *)
(** ** More on the cleanup tool: guards, dry runs, frames *)
(* ===================================================================== *)

Module CleanupFrames.
Import Py Fs DocumentCleanup Frames CleanupFacts.

(** *** The pieces keep what they do not name *)











Lemma read_bytes_keeps (P : path -> Prop) p : disk_keeps P (read_bytes p).
Proof.
  intros d q _. unfold read_bytes.
  destruct (d !! p) as [[?|? [] ?]|]; reflexivity.
Qed.












Section Frames.

Variable debug : bool.
Variable clock : nat -> string.











(** *** Guards and dry runs *)

(** X3. [clean_file] on a path that is not a regular file, in any mode:
    it returns [false] after one error message, "File not found" for a
    missing path and "Not a file" for anything else, and neither the
    disk nor the clock is touched. *)
Theorem clean_file_not_regular w p cb dry :
  is_regular (fs w) p = false ->
  clean_file debug clock p cb dry w
  = (Return false,
     World (fs w)
           (out w ++ [(Error, match fs w !! p with
                              | None => FileNotFound p
                              | Some _ => NotAFile p
                              end)])
           (tick w)).
Proof.
  unfold is_regular, clean_file. intros H.
  unfold bind at 1, on_disk at 1, exists_, gets. rewrite set_fs_id.
  destruct (fs w !! p) as [nd|] eqn:Hp; simpl.
  - unfold bind at 1, on_disk at 1, is_file, gets. rewrite set_fs_id, Hp.
    destruct nd; [|discriminate]. reflexivity.
  - reflexivity.
Qed.

(** [clean_file] in a dry run on a regular file. *)
Lemma clean_file_skips w p cb dry :
  is_regular (fs w) p = false ->
  exists m,
    clean_file debug clock p cb dry w
    = (Return false, World (fs w) (out w ++ [(Error, m)]) (tick w)).
Proof.
  unfold is_regular, clean_file. intros H.
  unfold bind at 1, on_disk at 1, exists_, gets. rewrite set_fs_id.
  destruct (fs w !! p) as [nd|] eqn:Hp; simpl.
  - unfold bind at 1, on_disk at 1, is_file, gets. rewrite set_fs_id, Hp.
    destruct nd; [|discriminate]. eexists. reflexivity.
  - eexists. reflexivity.
Qed.

Lemma clean_file_dry w p cb :
  is_regular (fs w) p = true ->
  clean_file debug clock p cb true w
  = (Return true,
     World (fs w)
           ((out w ++ [(Info, Cleaning (name p))])
            ++ [(Info, DryRunNoChangesWillBeMade)])
           (tick w)).
Proof.
  unfold is_regular, clean_file. intros H.
  unfold bind at 1, on_disk at 1, exists_, gets. rewrite set_fs_id.
  destruct (fs w !! p) as [[|c r wr]|] eqn:Hp; try discriminate. simpl.
  unfold bind at 1, on_disk at 1, is_file, gets. rewrite set_fs_id, Hp.
  simpl. unfold bind, ret. rewrite !log_run. reflexivity.
Qed.

Lemma clean_each_dry files cb : forall n w,
  exists w',
    clean_each debug clock files cb true n w
    = (Return (n + length (List.filter (is_regular (fs w)) files))%nat, w')
    /\ fs w' = fs w /\ tick w' = tick w.
Proof.
  induction files as [|p rest IH]; intros n w; simpl.
  - exists w. unfold ret. now rewrite Nat.add_0_r.
  - unfold bind at 1. destruct (is_regular (fs w) p) eqn:Hreg.
    + rewrite (clean_file_dry w p cb Hreg).
      unfold bind at 1. rewrite log_run. simpl.
      match goal with |- context [clean_each _ _ _ _ _ _ ?w1] =>
        destruct (IH (S n) w1) as (w' & -> & Hfs & Htick) end.
      exists w'. simpl in *. split_and!; auto. f_equal. f_equal. lia.
    + destruct (clean_file_skips w p cb true Hreg) as (m & ->).
      unfold bind at 1. rewrite log_run. simpl.
      match goal with |- context [clean_each _ _ _ _ _ _ ?w1] =>
        destruct (IH n w1) as (w' & -> & Hfs & Htick) end.
      exists w'. simpl in *. split_and!; auto.
Qed.

End Frames.

Lemma filter_all_length {A} (f : A -> bool) (l : list A) :
  (length (List.filter f l) =? length l)%nat = forallb f l.
Proof.
  assert (Hle : forall l', (length (List.filter f l') <= length l')%nat).
  { induction l' as [|a l' IH]; simpl; [lia|]. destruct (f a); simpl; lia. }
  induction l as [|a l IH]; simpl; [reflexivity|].
  destruct (f a); simpl; [exact IH|].
  apply Nat.eqb_neq. specialize (Hle l). lia.
Qed.

Lemma clean_all_dry debug clock rmtree files cb auto w :
  exists w',
    clean_all debug clock rmtree files cb true auto w
    = (Return (forallb (is_regular (fs w)) files), w')
    /\ fs w' = fs w /\ tick w' = tick w.
Proof.
  unfold clean_all.
  unfold bind at 1. rewrite log_run. rewrite andb_false_r.
  unfold bind at 1, ret at 1. unfold bind at 1.
  destruct (clean_each_dry debug clock files cb 0
              (logged debug Info CleaningFiles w)) as (w' & Hrun & Hfs & Htick).
  rewrite Hrun. simpl negb. cbv iota. unfold bind, ret. rewrite log_run.
  rewrite fs_logged, Nat.add_0_l, filter_all_length.
  eexists. split; [reflexivity|].
  now rewrite fs_logged, tick_logged, Hfs, Htick, fs_logged, tick_logged.
Qed.

(** X4. A dry run of [clean_all] never touches the disk and never reads
    the clock, for any list of paths and whatever else was asked for; it
    returns [true] exactly when every listed path is a regular file. *)
Theorem clean_all_dry_run debug clock rmtree files cb auto w :
  let run := clean_all debug clock rmtree files cb true auto w in
  fst run = Return (forallb (is_regular (fs w)) files)
  /\ fs (snd run) = fs w
  /\ tick (snd run) = tick w.
Proof.
  destruct (clean_all_dry debug clock rmtree files cb auto w)
    as (w' & Hrun & Hfs & Htick).
  cbv zeta. rewrite Hrun. auto.
Qed.

End CleanupFrames.

(* ===================================================================== *)
(** ** More on the transform *)
(* ===================================================================== *)

Module TransformFacts.
Import Py Fs DocumentCleanup CleanText CleanupFacts.

(** *** [rstrip] *)

Lemma rstrip_app (p : char -> bool) (a b : str) :
  rstrip p (a ++ b)
  = match rstrip p b with
    | [] => rstrip p a
    | r => a ++ r
    end.
Proof.
  induction a as [|c a IH]; simpl.
  - destruct (rstrip p b); reflexivity.
  - rewrite IH. destruct (rstrip p b) as [|x r]; [reflexivity|].
    destruct (a ++ x :: r) eqn:E; [|reflexivity].
    destruct a; discriminate.
Qed.

Lemma rstrip_snoc (p : char -> bool) (s : str) c :
  rstrip p (s ++ [c]) = if p c then rstrip p s else s ++ [c].
Proof. rewrite rstrip_app. simpl. destruct (p c); reflexivity. Qed.

(** What [rstrip] returns is empty or ends in a character it keeps. *)
Lemma rstrip_last (p : char -> bool) (s : str) :
  rstrip p s = [] \/ exists u c, rstrip p s = u ++ [c] /\ p c = false.
Proof.
  induction s as [|c s IH] using rev_ind; [now left|].
  rewrite rstrip_snoc. destruct (p c) eqn:E; [exact IH|].
  right. eauto.
Qed.

(** [rstrip] returns a prefix, and drops only what satisfies [p]. *)
Lemma rstrip_prefix (p : char -> bool) (s : str) :
  exists v, s = rstrip p s ++ v /\ forallb p v = true.
Proof.
  induction s as [|c s IH] using rev_ind; [now exists []|].
  rewrite rstrip_snoc. destruct (p c) eqn:E.
  - destruct IH as (v & Hv & Hp). exists (v ++ [c]). split.
    + rewrite app_assoc. now rewrite <- Hv.
    + rewrite forallb_app, Hp. simpl. now rewrite E.
  - exists []. now rewrite app_nil_r.
Qed.

Lemma rstrip_fixed (p : char -> bool) (s : str) c :
  p c = false -> rstrip p (s ++ [c]) = s ++ [c].
Proof. intros H. now rewrite rstrip_snoc, H. Qed.

Lemma rstrip_length (p : char -> bool) (s : str) :
  (length (rstrip p s) <= length s)%nat.
Proof.
  destruct (rstrip_prefix p s) as (v & Hv & _).
  rewrite Hv at 2. rewrite length_app. lia.
Qed.

(** Line 163 leaves one newline after what [rstrip()] keeps. *)
Lemma finish_ends (cleaned_lines : list str) :
  ends_with_one_newline (finish cleaned_lines).
Proof.
  unfold finish.
  match goal with |- context [rstrip isspace ?s] =>
    destruct (rstrip_last isspace s) as [->|(u & c & -> & Hc)] end.
  - now left.
  - right. exists u, c. split; [|exact Hc]. now rewrite <- app_assoc.
Qed.

(** X8. The transform always ends its output with exactly one newline:
    the output is a newline alone, or ends in a character that is not
    white space followed by one newline. In particular it is never
    empty. *)
Theorem cleanup_ends_with_one_newline (text : str) :
  ends_with_one_newline (cleanup text).
Proof. unfold cleanup, transform. apply finish_ends. Qed.

(** *** The loop over the lines *)

Lemma universal_newlines_no_cr (s : str) : no_cr (universal_newlines s) = true.
Proof.
  assert (H : forall n (t : str), (length t <= n)%nat ->
            no_cr (universal_newlines t) = true).
  { induction n as [|n IH]; intros [|c t] Hlen; simpl in *;
      try reflexivity; try lia.
    destruct (c =? CR) eqn:Ec.
    - simpl. destruct t as [|d t]; [reflexivity|]. simpl in Hlen.
      destruct (d =? LF); apply IH; simpl; lia.
    - simpl. rewrite Ec. simpl. apply IH. lia. }
  apply (H (length s)). lia.
Qed.

(** The text of a file read in text mode holds no carriage return. *)
Lemma read_text_no_cr bs text : read_text bs = Some text -> no_cr text = true.
Proof.
  unfold read_text. destruct (decode bs); [|discriminate].
  intros [= <-]. apply universal_newlines_no_cr.
Qed.

Lemma no_cr_app a b : no_cr (a ++ b) = no_cr a && no_cr b.
Proof. apply forallb_app. Qed.

Lemma no_cr_rstrip p s : no_cr s = true -> no_cr (rstrip p s) = true.
Proof.
  intros H. destruct (rstrip_prefix p s) as (v & Hv & _).
  rewrite Hv, no_cr_app in H. now apply andb_true_iff in H as [H _].
Qed.

Lemma endswith_snoc (suf : char) (s : str) c :
  endswith [suf] (s ++ [c]) = (suf =? c).
Proof.
  unfold endswith. rewrite rev_app_distr. simpl. now rewrite andb_true_r.
Qed.

Lemma endswith_nil suf x : endswith (x :: suf) [] = false.
Proof. unfold endswith. simpl. destruct (rev suf ++ [x]) eqn:E; [|reflexivity].
  destruct (rev suf); discriminate. Qed.

Lemma no_cr_endswith_cr s : no_cr s = true -> endswith [CR] s = false.
Proof.
  intros H. destruct s as [|c s] using rev_ind; [reflexivity|]. clear IHs.
  rewrite no_cr_app in H. apply andb_true_iff in H as [_ Hc].
  unfold no_cr in Hc. cbn [forallb] in Hc. rewrite andb_true_r in Hc.
  apply negb_true_iff in Hc.
  rewrite endswith_snoc, N.eqb_sym. exact Hc.
Qed.

Lemma endswith_crlf_snoc s c :
  endswith [CR; LF] (s ++ [c]) = (LF =? c) && endswith [CR] s.
Proof. unfold endswith. rewrite rev_app_distr. reflexivity. Qed.

(** A text without carriage return ends neither in ['\r'] nor in
    ['\r\n']. *)
Lemma no_cr_endswith s :
  no_cr s = true -> endswith [CR; LF] s = false /\ endswith [CR] s = false.
Proof.
  intros H. split; [|now apply no_cr_endswith_cr].
  destruct s as [|c s] using rev_ind; [reflexivity|]. clear IHs.
  rewrite no_cr_app in H. apply andb_true_iff in H as [Hs _].
  rewrite endswith_crlf_snoc, (no_cr_endswith_cr s Hs). apply andb_false_r.
Qed.

(** The last line: only its blanks at the end go. *)
Lemma clean_line_last n line :
  no_cr line = true -> clean_line n n line = rstrip is_blank line.
Proof.
  intros H. unfold clean_line.
  destruct (no_cr_endswith _ (no_cr_rstrip is_blank line H)) as [-> ->].
  now rewrite Nat.ltb_irrefl, andb_false_r.
Qed.

(** A line that has its newline stays as it is. *)
Lemma clean_line_terminated n i body :
  no_cr body = true -> clean_line n i (body ++ [LF]) = body ++ [LF].
Proof.
  intros H. unfold clean_line.
  rewrite (rstrip_fixed is_blank body LF eq_refl).
  assert (Hl : no_cr (body ++ [LF]) = true) by (rewrite no_cr_app, H; reflexivity).
  destruct (no_cr_endswith _ Hl) as [-> ->].
  now rewrite endswith_snoc.
Qed.

Lemma keepends_ok (text : str) : no_cr text = true -> lines_ok (keepends text).
Proof.
  induction text as [|c t IH]; intros H; [exact I|].
  unfold no_cr in H. cbn [forallb] in H. apply andb_true_iff in H as [Hc Ht].
  specialize (IH Ht). cbn [keepends].
  destruct (c =? LF) eqn:Ec.
  - apply N.eqb_eq in Ec. subst c. cbn [lines_ok].
    destruct (keepends t); [reflexivity|].
    split; [exists []; now split|exact IH].
  - destruct (keepends t) as [|l ls].
    + cbn. now rewrite Hc.
    + cbn [lines_ok] in *. destruct ls.
      * unfold no_cr. cbn [forallb]. rewrite Hc. exact IH.
      * destruct IH as [(body & -> & Hb) Hrest]. split; [|exact Hrest].
        exists (c :: body). split; [reflexivity|].
        unfold no_cr. cbn [forallb]. now rewrite Hc.
Qed.

Lemma cleaned_ok (lines : list str) : forall i n,
  (n + 1 = i + length lines)%nat ->
  lines_ok lines ->
  join0 (cleaned n i lines) = rstrip is_blank (join0 lines).
Proof.
  unfold join0.
  induction lines as [|l rest IH]; intros i n Hn Hok; [reflexivity|].
  cbn [cleaned concat lines_ok] in *. destruct rest as [|l' rest].
  - cbn [length cleaned concat] in *. rewrite !app_nil_r.
    replace n with i by lia. now apply clean_line_last.
  - destruct Hok as [(body & -> & Hb) Hrest].
    rewrite (clean_line_terminated _ _ body Hb).
    rewrite (IH (S i) n) by (try exact Hrest; unfold str in *; simpl in *; lia).
    rewrite rstrip_app.
    destruct (rstrip is_blank (concat (l' :: rest))); [|reflexivity].
    rewrite app_nil_r. symmetry. now apply rstrip_fixed.
Qed.

(** X7. What the loop over the lines does to the text of a file read in
    text mode: every line that has its newline is kept as it is, so the
    cleaned lines joined are the text without the spaces and tabs at its
    very end, and nothing else is stripped. *)
Theorem line_loop_strips_only_the_end bs text :
  read_text bs = Some text ->
  join0 (cleaned (length (keepends text)) 1 (keepends text))
  = rstrip is_blank text.
Proof.
  intros Hread. pose proof (read_text_no_cr bs text Hread) as Hcr.
  rewrite (cleaned_ok (keepends text) 1 (length (keepends text)))
    by (try apply keepends_ok; try assumption; lia).
  now rewrite join0_keepends.
Qed.

(** *** Lines *)

Lemma split_nl_app (u v : str) :
  exists ls l m ms,
    split_nl u = ls ++ [l] /\ split_nl v = m :: ms
    /\ split_nl (u ++ v) = ls ++ (l ++ m) :: ms.
Proof.
  induction u as [|c u IH].
  - destruct (split_nl v) as [|m ms] eqn:E.
    + destruct v as [|d v]; [discriminate|]. simpl in E.
      destruct (d =? LF); [discriminate|]. destruct (split_nl v); discriminate.
    + exists [], [], m, ms. simpl. now rewrite E.
  - destruct IH as (ls & l & m & ms & Hu & Hv & Huv). cbn [split_nl app].
    destruct (c =? LF).
    + exists ([] :: ls), l, m, ms. now rewrite Hu, Huv.
    + rewrite Hu, Huv. destruct ls as [|h ls]; simpl.
      * exists [], (c :: l), m, ms. auto.
      * exists ((c :: h) :: ls), l, m, ms. auto.
Qed.

Lemma split_nl_snoc_lf (u : str) :
  exists ls l, split_nl u = ls ++ [l] /\ split_nl (u ++ [LF]) = ls ++ [l; []].
Proof.
  destruct (split_nl_app u [LF]) as (ls & l & m & ms & Hu & Hv & Huv).
  injection Hv as <- <-. exists ls, l. now rewrite app_nil_r in Huv.
Qed.

Lemma split_nl_snoc (u : str) c :
  (c =? LF) = false ->
  exists ls l, split_nl u = ls ++ [l] /\ split_nl (u ++ [c]) = ls ++ [l ++ [c]].
Proof.
  intros Hc.
  destruct (split_nl_app u [c]) as (ls & l & m & ms & Hu & Hv & Huv).
  simpl in Hv. rewrite Hc in Hv. injection Hv as <- <-. eauto.
Qed.

Lemma join_cons (h l : str) (ls : list str) :
  join LF (h :: l :: ls) = h ++ LF :: join LF (l :: ls).
Proof. reflexivity. Qed.

(** [sep.join] of what [split] returned gives the text back. *)
Lemma join_split_nl (s : str) : join LF (split_nl s) = s.
Proof.
  induction s as [|c s IH]; [reflexivity|]. cbn [split_nl].
  destruct (c =? LF) eqn:Ec.
  - apply N.eqb_eq in Ec. subst c.
    destruct (split_nl s) as [|l ls] eqn:E.
    + destruct (split_nl_app [] s) as (? & ? & ? & ? & _ & H & _). congruence.
    + rewrite join_cons, IH. reflexivity.
  - destruct (split_nl s) as [|l ls] eqn:E.
    + destruct (split_nl_app [] s) as (? & ? & ? & ? & _ & H & _). congruence.
    + destruct ls as [|l' ls].
      * simpl in *. now rewrite IH.
      * rewrite join_cons in *. cbn [app]. now rewrite IH.
Qed.

Lemma join_snoc (ls : list str) l l' :
  join LF (ls ++ [l; l']) = join LF (ls ++ [l]) ++ LF :: l'.
Proof.
  induction ls as [|h ls IH]; [reflexivity|].
  cbn [app]. destruct (ls ++ [l; l']) eqn:E1.
  { destruct ls; discriminate. }
  destruct (ls ++ [l]) eqn:E2.
  { destruct ls; discriminate. }
  rewrite !join_cons, IH. now rewrite <- app_assoc.
Qed.

Lemma join_length_le (f : str -> str) (ls : list str) :
  (forall l, length (f l) <= length l)%nat ->
  (length (join LF (map f ls)) <= length (join LF ls))%nat.
Proof.
  intros Hf. induction ls as [|h ls IH]; [simpl; lia|].
  pose proof (Hf h) as Hh.
  destruct ls as [|h' ls]; [exact Hh|].
  cbn [map] in *. rewrite !join_cons, !length_app. cbn [length].
  unfold str, char in *. lia.
Qed.

(** The lines [split] returns hold no newline. *)
Lemma split_nl_no_lf (s : str) :
  Forall (fun l => forallb (fun c => negb (c =? LF)) l = true) (split_nl s).
Proof.
  induction s as [|c s IH]; [repeat constructor|]. cbn [split_nl].
  destruct (c =? LF) eqn:Ec; [now constructor|].
  destruct (split_nl s) as [|l ls]; [repeat constructor; simpl; now rewrite Ec|].
  inversion IH; subst. constructor; [|assumption]. simpl. now rewrite Ec.
Qed.

(** Splitting what was joined gives the lines back, when they hold no
    newline. *)
Lemma split_join_nl (ls : list str) :
  ls <> [] ->
  Forall (fun l => forallb (fun c => negb (c =? LF)) l = true) ls ->
  split_nl (join LF ls) = ls.
Proof.
  assert (Hline : forall l rest,
            forallb (fun c => negb (c =? LF)) l = true ->
            split_nl (l ++ LF :: rest) = l :: split_nl rest).
  { induction l as [|c l IH]; intros rest Hl; [reflexivity|].
    simpl in Hl. apply andb_true_iff in Hl as [Hc Hl].
    apply negb_true_iff in Hc. cbn [app split_nl]. rewrite Hc.
    now rewrite (IH rest Hl). }
  assert (Hlast : forall l,
            forallb (fun c => negb (c =? LF)) l = true -> split_nl l = [l]).
  { induction l as [|c l IH]; intros Hl; [reflexivity|].
    simpl in Hl. apply andb_true_iff in Hl as [Hc Hl].
    apply negb_true_iff in Hc. cbn [split_nl]. rewrite Hc.
    now rewrite (IH Hl). }
  induction ls as [|h ls IH]; intros Hne Hall; [congruence|].
  inversion Hall as [|? ? Hh Hls]; subst.
  destruct ls as [|h' ls]; [now apply Hlast|].
  rewrite join_cons, (Hline h _ Hh). f_equal.
  apply IH; [discriminate|exact Hls].
Qed.

(** *** Lines of blanks *)

Lemma blank_is_space c : is_blank c = true -> isspace c = true.
Proof.
  unfold is_blank. intros H. apply orb_true_iff in H as [H|H];
    apply N.eqb_eq in H; subst c; reflexivity.
Qed.

Lemma not_space_not_blank c : isspace c = false -> is_blank c = false.
Proof.
  intros H. destruct (is_blank c) eqn:E; [|reflexivity].
  apply blank_is_space in E. congruence.
Qed.

Lemma not_space_not_lf c : isspace c = false -> (c =? LF) = false.
Proof.
  intros H. destruct (c =? LF) eqn:E; [|reflexivity].
  apply N.eqb_eq in E. subst c. discriminate H.
Qed.

Lemma is_blank_line_snoc l c : is_blank c = false -> is_blank_line (l ++ [c]) = false.
Proof.
  intros H. unfold is_blank_line.
  destruct (l ++ [c]) eqn:E; [reflexivity|]. rewrite <- E.
  rewrite forallb_app. simpl. rewrite H. now rewrite andb_false_r.
Qed.

Lemma emptied_not_blank l :
  is_blank_line (if is_blank_line l then [] else l) = false.
Proof. destruct (is_blank_line l) eqn:E; [reflexivity|exact E]. Qed.

Lemma emptied_no_lf l :
  forallb (fun c => negb (c =? LF)) l = true ->
  forallb (fun c => negb (c =? LF)) (if is_blank_line l then [] else l) = true.
Proof. destruct (is_blank_line l); auto. Qed.

(** The lines of what [re.sub(r'^[ \t]+$', '', _)] returns. *)
Lemma sub_blank_lines_lines (x : str) :
  split_nl (sub_blank_lines x)
  = map (fun l => if is_blank_line l then [] else l) (split_nl x).
Proof.
  unfold sub_blank_lines. apply split_join_nl.
  - destruct (split_nl_app [] x) as (? & ? & m & ms & _ & -> & _). discriminate.
  - pose proof (split_nl_no_lf x) as H. induction H; constructor; auto.
    now apply emptied_no_lf.
Qed.

Lemma has_blank_sub (x : str) : has_blank_line (sub_blank_lines x) = false.
Proof.
  unfold has_blank_line. rewrite sub_blank_lines_lines.
  induction (split_nl x) as [|l ls IH]; [reflexivity|].
  cbn [map existsb]. now rewrite emptied_not_blank, IH.
Qed.

(** No line of blanks comes up when the white space at the end of a text
    is replaced by one newline. *)
Lemma has_blank_rstrip_nl (s : str) :
  has_blank_line s = false ->
  has_blank_line (rstrip isspace s ++ [LF]) = false.
Proof.
  unfold has_blank_line. intros Hs.
  destruct (rstrip_prefix isspace s) as (v & Hv & _).
  set (R := rstrip isspace s) in *.
  destruct (split_nl_app R v) as (ls & l & m & ms & HR & _ & HRv).
  rewrite <- Hv in HRv. rewrite HRv, existsb_app in Hs.
  apply orb_false_iff in Hs as [Hls _].
  assert (Hl : is_blank_line l = false).
  { destruct (rstrip_last isspace s) as [E|(u & c & E & Hc)]; fold R in E.
    - rewrite E in HR. destruct ls as [|? [|? ?]]; try discriminate.
      injection HR as <-. reflexivity.
    - destruct (split_nl_snoc u c (not_space_not_lf c Hc)) as (ls' & l' & _ & Huc).
      assert (HR' : split_nl R = ls' ++ [l' ++ [c]]) by (rewrite E; exact Huc).
      rewrite HR in HR'. apply app_inj_tail in HR' as [_ ->].
      apply is_blank_line_snoc. now apply not_space_not_blank. }
  destruct (split_nl_snoc_lf R) as (ls2 & l2 & HR2 & ->).
  rewrite HR in HR2. apply app_inj_tail in HR2 as [<- <-].
  rewrite existsb_app, Hls. simpl. now rewrite Hl.
Qed.

(** X9. The output of the transform has no line made of spaces and tabs
    only, whatever the input. *)
Theorem cleanup_no_blank_line (text : str) :
  has_blank_line (cleanup text) = false.
Proof.
  unfold cleanup, transform, finish.
  apply has_blank_rstrip_nl, has_blank_sub.
Qed.

(** *** Runs of newlines *)

Lemma run3_cons a (s : str) :
  has_newline_run3 (a :: s)
  = (a =? LF) && startswith [LF; LF] s || has_newline_run3 s.
Proof.
  destruct s as [|b [|c t]].
  - simpl. now rewrite andb_false_r.
  - simpl. now rewrite !andb_false_r.
  - cbn [has_newline_run3 startswith].
    rewrite (N.eqb_sym LF b), (N.eqb_sym LF c), andb_true_r, andb_assoc.
    reflexivity.
Qed.

Lemma run3_not_lf a (s : str) :
  (a =? LF) = false -> has_newline_run3 (a :: s) = has_newline_run3 s.
Proof. intros H. now rewrite run3_cons, H. Qed.

Lemma repeat_snoc_lf n (s : str) :
  repeat LF n ++ LF :: s = repeat LF (S n) ++ s.
Proof. induction n; simpl in *; congruence. Qed.

(** Newlines pending before something that is not a newline. *)
Lemma run3_pending n c (s : str) :
  (c =? LF) = false ->
  has_newline_run3 (repeat LF n ++ c :: s) = (3 <=? n)%nat || has_newline_run3 s.
Proof.
  intros Hc. destruct n as [|[|[|n]]].
  - simpl app. now rewrite run3_not_lf.
  - simpl app. rewrite (run3_cons LF (c :: s)), (run3_not_lf c s Hc).
    cbn [startswith]. rewrite (N.eqb_sym LF c), Hc. cbn [andb].
    now rewrite andb_false_r.
  - simpl app.
    rewrite (run3_cons LF (LF :: c :: s)), (run3_cons LF (c :: s)),
      (run3_not_lf c s Hc).
    cbn [startswith]. rewrite (N.eqb_sym LF c), Hc. cbn [andb].
    now rewrite !andb_false_r.
  - simpl app. rewrite run3_cons. reflexivity.
Qed.

Lemma run3_pending_end n :
  has_newline_run3 (repeat LF n) = (3 <=? n)%nat.
Proof. destruct n as [|[|[|n]]]; reflexivity. Qed.

Lemma flush_small n : (3 <=? n)%nat = false -> flush_newlines n = repeat LF n.
Proof. unfold flush_newlines. now intros ->. Qed.

Lemma flush_length n : (length (flush_newlines n) <= n)%nat.
Proof.
  unfold flush_newlines. destruct (3 <=? n)%nat eqn:E.
  - apply Nat.leb_le in E. simpl. lia.
  - now rewrite repeat_length.
Qed.

Lemma flush_length_lt n :
  (3 <=? n)%nat = true -> (length (flush_newlines n) < n)%nat.
Proof.
  unfold flush_newlines. intros E. rewrite E. apply Nat.leb_le in E.
  simpl. lia.
Qed.

(** A text without three newlines in a row is left as it is. *)
Lemma sub_newline_runs_id (s : str) : forall n,
  has_newline_run3 (repeat LF n ++ s) = false ->
  sub_newline_runs n s = repeat LF n ++ s.
Proof.
  induction s as [|c s IH]; intros n H.
  - rewrite app_nil_r in *. rewrite run3_pending_end in H. now apply flush_small.
  - cbn [sub_newline_runs]. destruct (c =? LF) eqn:Ec.
    + apply N.eqb_eq in Ec. subst c. rewrite repeat_snoc_lf in *. now apply IH.
    + pose proof (eq_trans (eq_sym (run3_pending n c s Ec)) H) as H'.
      apply orb_false_iff in H' as [Hn Hs].
      rewrite (flush_small n Hn), (IH 0%nat Hs). reflexivity.
Qed.

(** The output is never longer, and shorter when there were three
    newlines in a row. *)
Lemma sub_newline_runs_length (s : str) : forall n,
  (length (sub_newline_runs n s) <= n + length s)%nat
  /\ (has_newline_run3 (repeat LF n ++ s) = true ->
      (length (sub_newline_runs n s) < n + length s)%nat).
Proof.
  induction s as [|c s IH]; intros n.
  - cbn [sub_newline_runs length]. rewrite app_nil_r, run3_pending_end.
    pose proof (flush_length n). split; [lia|].
    intros E. pose proof (flush_length_lt n E). lia.
  - cbn [sub_newline_runs]. destruct (c =? LF) eqn:Ec.
    + apply N.eqb_eq in Ec. subst c. rewrite repeat_snoc_lf.
      destruct (IH (S n)) as [Hle Hlt]. cbn [length]. split; [lia|].
      intros E. specialize (Hlt E). lia.
    + rewrite length_app. cbn [length].
      destruct (IH 0%nat) as [Hle Hlt]. cbn [repeat app] in Hlt.
      pose proof (flush_length n). split; [lia|].
      intros E. pose proof (eq_trans (eq_sym (run3_pending n c s Ec)) E) as E'.
      apply orb_true_iff in E' as [E'|E'].
      * pose proof (flush_length_lt n E'). lia.
      * specialize (Hlt E'). lia.
Qed.

(** A newline at the end stays at the end. *)
Lemma sub_newline_runs_ends (s : str) : forall n,
  exists u, sub_newline_runs n (s ++ [LF]) = u ++ [LF].
Proof.
  induction s as [|c s IH]; intros n.
  - cbn [app sub_newline_runs]. rewrite N.eqb_refl.
    unfold flush_newlines. destruct (3 <=? S n)%nat.
    + now exists [LF].
    + exists (repeat LF n). pose proof (repeat_snoc_lf n []) as H.
      rewrite app_nil_r in H. now rewrite H.
  - cbn [app sub_newline_runs]. destruct (c =? LF).
    + apply IH.
    + destruct (IH 0%nat) as (u & ->).
      exists (flush_newlines n ++ c :: u). now rewrite <- app_assoc.
Qed.

Lemma sub_blank_lines_ends (s : str) :
  exists u, sub_blank_lines (s ++ [LF]) = u ++ [LF].
Proof.
  unfold sub_blank_lines.
  destruct (split_nl_snoc_lf s) as (ls & l & _ & ->).
  rewrite map_app. cbn [map]. rewrite join_snoc.
  eexists. reflexivity.
Qed.

Lemma sub_blank_lines_length (s : str) :
  (length (sub_blank_lines s) <= length s)%nat.
Proof.
  unfold sub_blank_lines. rewrite <- (join_split_nl s) at 2.
  apply join_length_le. intros l. destruct (is_blank_line l); simpl; lia.
Qed.

(** A text without a line of blanks is left as it is. *)
Lemma sub_blank_lines_id (s : str) :
  has_blank_line s = false -> sub_blank_lines s = s.
Proof.
  unfold has_blank_line, sub_blank_lines. intros H.
  rewrite <- (join_split_nl s) at 2. f_equal.
  induction (split_nl s) as [|l ls IH]; [reflexivity|].
  cbn [existsb map] in *. apply orb_false_iff in H as [Hl Hls].
  now rewrite Hl, (IH Hls).
Qed.

(** *** Fixed points *)

(** The transform on a text without carriage return, loop resolved. *)
Lemma cleanup_eq (text : str) :
  no_cr text = true ->
  cleanup text
  = rstrip isspace (sub_blank_lines (sub_newline_runs 0 (rstrip is_blank text)))
    ++ [LF].
Proof.
  intros Hcr. unfold cleanup, transform, finish.
  rewrite (cleaned_ok (keepends text) 1 (length (keepends text)))
    by (try apply keepends_ok; try assumption; lia).
  now rewrite join0_keepends.
Qed.

Lemma ends_with_one_newline_lf (s : str) :
  ends_with_one_newline s ->
  exists body, s = body ++ [LF] /\ rstrip isspace body = body.
Proof.
  intros [->|(u & c & -> & Hc)].
  - now exists [].
  - exists (u ++ [c]). split; [now rewrite <- app_assoc|].
    now apply rstrip_fixed.
Qed.

(** X10. The texts the transform leaves as they are, among those text
    mode can hand over, are exactly the clean ones: one newline at the
    end after something that is not white space, no three newlines in a
    row, no line made of blanks only. Blanks at the end of a line that
    holds something else do not stand in the way. *)
Theorem cleanup_fixed_iff_clean (text : str) :
  no_cr text = true ->
  cleanup text = text <-> clean text.
Proof.
  intros Hcr. split.
  - intros Hfix. unfold clean. split_and!.
    + rewrite <- Hfix. apply finish_ends.
    + destruct (has_newline_run3 text) eqn:Hrun; [exfalso|reflexivity].
      assert (Hend : ends_with_one_newline text)
        by (rewrite <- Hfix; apply finish_ends).
      destruct (ends_with_one_newline_lf text Hend) as (body & Hbody & _).
      rewrite (cleanup_eq text Hcr) in Hfix.
      rewrite Hbody in Hfix at 1.
      rewrite (rstrip_fixed is_blank body LF eq_refl) in Hfix.
      destruct (sub_newline_runs_ends body 0) as (uC & HC).
      destruct (sub_newline_runs_length (body ++ [LF]) 0) as [_ Hlt].
      cbn [repeat app] in Hlt. rewrite <- Hbody in Hlt at 1.
      specialize (Hlt Hrun). rewrite HC in Hlt, Hfix.
      destruct (sub_blank_lines_ends uC) as (uD & HD).
      pose proof (sub_blank_lines_length (uC ++ [LF])) as HleD.
      rewrite HD in HleD, Hfix.
      rewrite (rstrip_snoc isspace uD LF) in Hfix. cbn [isspace] in Hfix.
      change (isspace LF) with true in Hfix. cbv iota in Hfix.
      pose proof (rstrip_length isspace uD) as HleE.
      apply (f_equal (@length char)) in Hfix.
      pose proof (f_equal (@length char) Hbody) as Hlen.
      rewrite !length_app in *. cbn [length] in *.
      unfold str, char in *. lia.
    + rewrite <- Hfix. unfold cleanup at 1, transform at 1, finish at 1.
      apply has_blank_rstrip_nl, has_blank_sub.
  - intros (Hend & Hrun & Hblank).
    destruct (ends_with_one_newline_lf text Hend) as (body & Hbody & Hstrip).
    rewrite (cleanup_eq text Hcr).
    rewrite Hbody at 1. rewrite (rstrip_fixed is_blank body LF eq_refl).
    rewrite <- Hbody.
    rewrite (sub_newline_runs_id text 0 Hrun). cbn [repeat app].
    rewrite (sub_blank_lines_id text Hblank).
    rewrite Hbody at 1. rewrite (rstrip_snoc isspace body LF).
    change (isspace LF) with true. cbv iota. now rewrite Hstrip.
Qed.

End TransformFacts.

(* ===================================================================== *)
(** ** UTF-8 there and back *)
(* ===================================================================== *)

Module Utf8Facts.
Import Py CleanText.

Lemma to_N_byte_of n : n <= 255 -> Byte.to_N (byte_of n) = n.
Proof.
  intros H. unfold byte_of. destruct (Byte.of_N n) as [b|] eqn:E.
  - now apply Byte.to_of_N.
  - apply Byte.of_N_None_iff in E. lia.
Qed.

Ltac split_tests :=
  repeat match goal with
  | |- context [?a <? ?b] => destruct (N.ltb_spec a b); try lia
  | |- context [?a <=? ?b] => destruct (N.leb_spec a b); try lia
  end.

(** What one code point was encoded to decodes to that code point. *)
Lemma decode_encode_char c (b : bytes) (rest : list N) :
  encode_char c = Some b ->
  decode_N (map Byte.to_N b ++ rest) = cons c <$> decode_N rest.
Proof.
  unfold encode_char.
  replace (c / 4096) with (c / 64 / 64)
    by (rewrite N.Div0.div_div; reflexivity).
  replace (c / 262144) with (c / 64 / 64 / 64)
    by (rewrite !N.Div0.div_div; reflexivity).
  pose proof (N.div_mod c 64 ltac:(lia)) as D1.
  pose proof (N.mod_lt c 64 ltac:(lia)) as M1.
  pose proof (N.div_mod (c / 64) 64 ltac:(lia)) as D2.
  pose proof (N.mod_lt (c / 64) 64 ltac:(lia)) as M2.
  pose proof (N.div_mod (c / 64 / 64) 64 ltac:(lia)) as D3.
  pose proof (N.mod_lt (c / 64 / 64) 64 ltac:(lia)) as M3.
  set (q1 := c / 64) in *. set (r1 := c mod 64) in *.
  set (q2 := q1 / 64) in *. set (r2 := q1 mod 64) in *.
  set (q3 := q2 / 64) in *. set (r3 := q2 mod 64) in *.
  clearbody q3 r3 q2 r2 q1 r1.
  destruct (N.ltb_spec c 128).
  { intros [= <-]. cbn [map app]. rewrite to_N_byte_of by lia.
    cbn [decode_N]. destruct (N.ltb_spec c 128); [reflexivity|lia]. }
  destruct (N.ltb_spec c 2048).
  { intros [= <-]. cbn [map app]. rewrite !to_N_byte_of by lia.
    cbn [decode_N]. unfold is_cont. split_tests. cbn [andb].
    f_equal. f_equal. lia. }
  destruct (N.ltb_spec c 65536).
  { destruct (N.leb_spec 55296 c), (N.leb_spec c 57343); cbn [andb];
      try discriminate; intros [= <-]; cbn [map app];
      rewrite !to_N_byte_of by lia;
      cbn [decode_N]; unfold is_cont; cbv zeta; split_tests; cbn [andb negb];
      f_equal; f_equal; lia. }
  destruct (N.leb_spec c 1114111); [|discriminate].
  intros [= <-]. cbn [map app].
  rewrite !to_N_byte_of by lia.
  cbn [decode_N]. unfold is_cont. cbv zeta. split_tests. cbn [andb negb].
  f_equal. f_equal. lia.
Qed.

(** Decoding what was encoded gives the text back. *)
Lemma decode_encode (s : str) (bs : bytes) :
  encode s = Some bs -> decode bs = Some s.
Proof.
  unfold decode. revert bs. induction s as [|c s IH]; intros bs.
  - intros [= <-]. reflexivity.
  - cbn [encode]. destruct (encode_char c) as [b|] eqn:Ec; [|discriminate].
    destruct (encode s) as [bs'|]; [|discriminate]. intros [= <-].
    rewrite map_app, (decode_encode_char c b _ Ec), (IH bs' eq_refl).
    reflexivity.
Qed.

(** What decodes holds only code points that encode. *)
Lemma decode_N_encodable (bs : list N) : forall s,
  decode_N bs = Some s -> forallb encodable s = true.
Proof.
  assert (H : forall n (bs : list N) s, (length bs <= n)%nat ->
            decode_N bs = Some s -> forallb encodable s = true).
  { clear bs. induction n as [|n IH]; intros bs s Hlen.
    - destruct bs; [|simpl in Hlen; lia]. now intros [= <-].
    - destruct bs as [|b0 r0]; [now intros [= <-]|].
      simpl in Hlen. cbn [decode_N].
      destruct (N.ltb_spec b0 128).
      { destruct (decode_N r0) as [t|] eqn:E; [|discriminate].
        intros [= <-]. cbn [forallb]. rewrite (IH r0 t) by (auto; lia).
        unfold encodable. split_tests. }
      destruct ((194 <=? b0) && (b0 <=? 223)) eqn:E2.
      { apply andb_true_iff in E2 as [L1 L2].
        apply N.leb_le in L1, L2.
        destruct r0 as [|b1 r1]; [discriminate|].
        unfold is_cont. destruct ((128 <=? b1) && (b1 <=? 191)) eqn:C1;
          [|discriminate].
        apply andb_true_iff in C1 as [C1 C1']. apply N.leb_le in C1, C1'.
        destruct (decode_N r1) as [t|] eqn:E; [|discriminate].
        intros [= <-]. cbn [forallb].
        rewrite (IH r1 t) by (auto; simpl in Hlen; lia).
        unfold encodable. split_tests. }
      destruct ((224 <=? b0) && (b0 <=? 239)) eqn:E3.
      { apply andb_true_iff in E3 as [L1 L2].
        apply N.leb_le in L1, L2.
        destruct r0 as [|b1 [|b2 r2]]; try discriminate. cbv zeta.
        match goal with |- (if ?c then _ else _) = _ -> _ =>
          destruct c eqn:C; [|discriminate] end.
        apply andb_true_iff in C as [C C4]. apply andb_true_iff in C as [C C3].
        apply andb_true_iff in C as [C1 C2]. unfold is_cont in C1, C2.
        apply andb_true_iff in C1 as [C1 C1'], C2 as [C2 C2'].
        apply N.leb_le in C1, C1', C2, C2', C3.
        apply negb_true_iff in C4.
        destruct (decode_N r2) as [t|] eqn:E; [|discriminate].
        intros [= <-]. cbn [forallb].
        rewrite (IH r2 t) by (auto; simpl in Hlen; lia).
        rewrite andb_true_r. unfold encodable.
        apply andb_false_iff in C4 as [C4|C4];
          [apply N.leb_gt in C4|apply N.leb_gt in C4]; split_tests. }
      destruct ((240 <=? b0) && (b0 <=? 244)) eqn:E4; [|discriminate].
      destruct r0 as [|b1 [|b2 [|b3 r3]]]; try discriminate. cbv zeta.
      match goal with |- (if ?c then _ else _) = _ -> _ =>
        destruct c eqn:C; [|discriminate] end.
      apply andb_true_iff in C as [C C5]. apply andb_true_iff in C as [C C4].
      apply N.leb_le in C4, C5.
      destruct (decode_N r3) as [t|] eqn:E; [|discriminate].
      intros [= <-]. cbn [forallb].
      rewrite (IH r3 t) by (auto; simpl in Hlen; lia).
      rewrite andb_true_r. unfold encodable. split_tests. }
  intros s. apply (H (length bs)). lia.
Qed.

Lemma encode_char_total c : encodable c = true -> exists b, encode_char c = Some b.
Proof.
  unfold encodable, encode_char. intros H.
  destruct (N.ltb_spec c 128); [eauto|].
  destruct (N.ltb_spec c 2048); [eauto|].
  destruct (N.ltb_spec c 65536).
  - destruct (N.ltb_spec c 55296).
    + destruct (N.leb_spec 55296 c); [lia|]. cbn [andb]. eauto.
    + cbn [orb] in H. apply andb_true_iff in H as [Hhi _].
      apply N.ltb_lt in Hhi. destruct (N.leb_spec c 57343); [lia|].
      rewrite andb_false_r. eauto.
  - destruct (N.ltb_spec c 55296); [lia|]. cbn [orb] in H.
    apply andb_true_iff in H as [_ ->]. eauto.
Qed.

(** A text of code points that encode does encode. *)
Lemma encode_total (s : str) :
  forallb encodable s = true -> exists bs, encode s = Some bs.
Proof.
  induction s as [|c s IH]; [now exists []|]. cbn [forallb encode].
  intros H. apply andb_true_iff in H as [Hc Hs].
  destruct (encode_char_total c Hc) as (b & ->).
  destruct (IH Hs) as (bs & ->). eauto.
Qed.

Lemma universal_newlines_id (s : str) :
  no_cr s = true -> universal_newlines s = s.
Proof.
  induction s as [|c s IH]; [reflexivity|].
  unfold no_cr. cbn [forallb universal_newlines]. intros H.
  apply andb_true_iff in H as [Hc Hs]. apply negb_true_iff in Hc.
  rewrite Hc. now rewrite (IH Hs).
Qed.

End Utf8Facts.

(* ===================================================================== *)
(** ** Backups made, files rewritten *)
(* ===================================================================== *)

Module RewriteFacts.
Import Py Fs DocumentCleanup Frames CleanText CleanupFacts TransformFacts Utf8Facts.

(** *** The transform adds nothing but newlines *)

Section Chars.

Variable p : char -> bool.
Hypothesis p_lf : p LF = true.

Lemma forallb_concat (ls : list str) :
  forallb p (concat ls) = forallb (forallb p) ls.
Proof using All.
  induction ls as [|l ls IH]; [reflexivity|].
  cbn [concat forallb]. now rewrite forallb_app, IH.
Qed.

Lemma forallb_rstrip q (s : str) :
  forallb p s = true -> forallb p (rstrip q s) = true.
Proof using All.
  intros H. destruct (rstrip_prefix q s) as (v & Hv & _).
  rewrite Hv, forallb_app in H. now apply andb_true_iff in H as [H _].
Qed.

Lemma forallb_firstn k (s : str) :
  forallb p s = true -> forallb p (firstn k s) = true.
Proof using All.
  intros H. rewrite <- (firstn_skipn k s), forallb_app in H.
  now apply andb_true_iff in H as [H _].
Qed.

Lemma forallb_snoc_lf (s : str) :
  forallb p s = true -> forallb p (s ++ [LF]) = true.
Proof using All. intros H. rewrite forallb_app, H. simpl. now rewrite p_lf. Qed.

Lemma clean_line_forallb n i (l : str) :
  forallb p l = true -> forallb p (clean_line n i l) = true.
Proof using All.
  intros H. unfold clean_line, drop_last.
  pose proof (forallb_rstrip is_blank l H) as Hr.
  repeat match goal with |- context [if ?c then _ else _] => destruct c end;
    auto using forallb_snoc_lf, forallb_firstn.
Qed.

Lemma cleaned_forallb (lines : list str) : forall n i,
  forallb (forallb p) lines = true ->
  forallb (forallb p) (cleaned n i lines) = true.
Proof using All.
  induction lines as [|l ls IH]; intros n i H; [reflexivity|].
  cbn [cleaned forallb] in *. apply andb_true_iff in H as [Hl Hls].
  now rewrite clean_line_forallb, IH.
Qed.

Lemma flush_forallb n : forallb p (flush_newlines n) = true.
Proof using All.
  unfold flush_newlines. destruct (3 <=? n)%nat.
  - simpl. now rewrite p_lf.
  - induction n; simpl; [reflexivity|]. now rewrite p_lf.
Qed.

Lemma sub_newline_runs_forallb (s : str) : forall n,
  forallb p s = true -> forallb p (sub_newline_runs n s) = true.
Proof using All.
  induction s as [|c s IH]; intros n H; cbn [sub_newline_runs].
  - apply flush_forallb.
  - cbn [forallb] in H. apply andb_true_iff in H as [Hc Hs].
    destruct (c =? LF); [now apply IH|].
    rewrite forallb_app, flush_forallb. cbn [forallb andb].
    now rewrite Hc, IH.
Qed.

Lemma join_forallb (ls : list str) :
  forallb (forallb p) ls = true -> forallb p (join LF ls) = true.
Proof using All.
  induction ls as [|l ls IH]; [reflexivity|]. cbn [forallb]. intros H.
  apply andb_true_iff in H as [Hl Hls].
  destruct ls as [|l' ls]; [exact Hl|].
  rewrite join_cons, forallb_app, Hl. cbn [forallb andb].
  now rewrite p_lf, IH.
Qed.

Lemma split_nl_forallb (s : str) :
  forallb p s = true -> forallb (forallb p) (split_nl s) = true.
Proof using All.
  induction s as [|c s IH]; [reflexivity|]. cbn [forallb split_nl].
  intros H. apply andb_true_iff in H as [Hc Hs]. specialize (IH Hs).
  destruct (c =? LF); [exact IH|].
  destruct (split_nl s) as [|l ls]; cbn [forallb] in *.
  - now rewrite Hc.
  - apply andb_true_iff in IH as [Hl Hls]. now rewrite Hc, Hl, Hls.
Qed.

Lemma sub_blank_lines_forallb (s : str) :
  forallb p s = true -> forallb p (sub_blank_lines s) = true.
Proof using All.
  intros H. unfold sub_blank_lines. apply join_forallb.
  pose proof (split_nl_forallb s H) as Hl.
  induction (split_nl s) as [|l ls IH]; [reflexivity|].
  cbn [map forallb] in *. apply andb_true_iff in Hl as [Hl Hls].
  rewrite (IH Hls). destruct (is_blank_line l); [reflexivity|].
  now rewrite Hl.
Qed.

(** Every character of the output is a character of the input or a
    newline. *)
Lemma cleanup_forallb (text : str) :
  forallb p text = true -> forallb p (cleanup text) = true.
Proof using All.
  intros H. unfold cleanup, transform, finish, join0.
  apply forallb_snoc_lf, forallb_rstrip, sub_blank_lines_forallb,
    sub_newline_runs_forallb.
  rewrite forallb_concat. apply cleaned_forallb.
  rewrite <- forallb_concat. fold (join0 (keepends text)).
  now rewrite join0_keepends.
Qed.

Lemma universal_newlines_forallb (s : str) :
  forallb p s = true -> forallb p (universal_newlines s) = true.
Proof using All.
  assert (H : forall n (t : str), (length t <= n)%nat ->
            forallb p t = true -> forallb p (universal_newlines t) = true).
  { induction n as [|n IH]; intros [|c t] Hlen Hall; simpl in *;
      try reflexivity; try lia.
    apply andb_true_iff in Hall as [Hc Ht].
    destruct (c =? CR).
    - simpl. rewrite p_lf. destruct t as [|d t]; [reflexivity|].
      simpl in Ht, Hlen. apply andb_true_iff in Ht as [Hd Ht'].
      destruct (d =? LF).
      + apply IH; [lia|exact Ht'].
      + apply IH; [simpl; lia|]. simpl. now rewrite Hd, Ht'.
    - simpl. rewrite Hc. apply IH; [lia|exact Ht]. }
  apply (H (length s)). lia.
Qed.

End Chars.

(** X11. The transform adds nothing but newlines: every character of
    its output is a newline or a character of its input. *)
Theorem cleanup_adds_only_newlines (text : str) (c : char) :
  In c (cleanup text) -> c = LF \/ In c text.
Proof.
  intros Hin.
  set (p := fun x : char => (x =? LF) || existsb (N.eqb x) text).
  assert (Hp : forallb p text = true).
  { apply forallb_forall. intros x Hx. unfold p.
    apply orb_true_iff. right. apply existsb_exists. exists x.
    split; [exact Hx|apply N.eqb_refl]. }
  pose proof (cleanup_forallb p eq_refl text Hp) as Hout.
  rewrite forallb_forall in Hout. specialize (Hout c Hin). unfold p in Hout.
  apply orb_true_iff in Hout as [H|H].
  - left. now apply N.eqb_eq in H.
  - right. apply existsb_exists in H as (x & Hx & E).
    apply N.eqb_eq in E. now subst x.
Qed.

(** The text the transform makes of a file's text can be written and
    read back as it is. *)
Lemma cleanup_round_trip bs text :
  read_text bs = Some text ->
  exists bs', encode (cleanup text) = Some bs'
              /\ read_text bs' = Some (cleanup text).
Proof.
  intros Hread. pose proof (read_text_no_cr bs text Hread) as Hcr.
  unfold read_text in Hread. destruct (decode bs) as [t|] eqn:Hdec;
    [|discriminate]. injection Hread as <-.
  apply decode_N_encodable in Hdec.
  pose proof (universal_newlines_forallb encodable eq_refl t Hdec) as Henc.
  apply (cleanup_forallb encodable eq_refl) in Henc.
  destruct (encode_total _ Henc) as (bs' & Hbs'). exists bs'.
  split; [exact Hbs'|]. unfold read_text.
  rewrite (decode_encode _ _ Hbs'). cbn. f_equal.
  apply universal_newlines_id.
  now apply (cleanup_forallb (fun c => negb (c =? CR)) eq_refl).
Qed.

Section Runs.

Variable debug : bool.
Variable clock : nat -> string.

(** [copy2] of a readable file to a free name in a directory that takes
    new entries. *)
Lemma copy2_ok (d : disk) src dst c w :
  d !! src = Some (File c true w) ->
  d !! dst = None ->
  d !! parent dst = Some (Dir true) ->
  copy2 src dst d = (Return tt, <[dst := File c true w]> d).
Proof.
  intros Hsrc Hdst Hpar. unfold copy2, bind, gets, id.
  rewrite Hdst, Hsrc. case_bool_decide as Hsame; [congruence|].
  unfold read_bytes, open_w, modify. rewrite Hsrc, Hdst, Hpar.
  now rewrite insert_insert_eq.
Qed.

(** [copy2] raises and leaves the disk as it was, or copies a file the
    process may read. *)
Lemma copy2_cases (d : disk) src dst :
  (exists e, copy2 src dst d = (Raise e, d))
  \/ (exists c w dst',
        d !! src = Some (File c true w)
        /\ copy2 src dst d = (Return tt, <[dst' := File c true w]> d)
        /\ (dst' = dst \/ dst' = dst ++ [name src])).
Proof.
  destruct (d !! src) as [[dw|c r w]|] eqn:Hsrc.
  - left. unfold copy2, bind, gets, id. rewrite Hsrc.
    case_bool_decide; [eexists; reflexivity|].
    unfold read_bytes. rewrite Hsrc. eexists. reflexivity.
  - destruct (copy2_run d src dst c r w Hsrc)
      as [He|(dst' & He & _ & Hdst)]; [now left|].
    destruct r.
    + right. exists c, w, dst'. split_and!; [reflexivity|exact He|tauto].
    + exfalso. revert He. unfold copy2, bind, gets, id. rewrite Hsrc.
      case_bool_decide; [discriminate|].
      unfold read_bytes. rewrite Hsrc. discriminate.
  - left. unfold copy2, bind, gets, id. rewrite Hsrc. eexists. reflexivity.
Qed.

(** X5. Once the backup directory is there or can be made,
    [create_backup] does not raise, for any path. It returns [None]
    after one warning, the disk being what [mkdir] left; or it returns
    the path [<name>.<timestamp>.backup] under the backup directory after
    copying the bytes and the mode of a file the process may read (into
    that path, or below it when a directory sits there). *)
Theorem create_backup_contract w p :
  backup_dir_ready (fs w) ->
  let b := backup_path_of p (clock (tick w)) in
  (exists e w',
      create_backup debug clock p w = (Return None, w')
      /\ fs w' = after_mkdir (fs w)
      /\ out w' = out w ++ [(Warning, CouldNotCreateBackup e)])
  \/ (exists c wr dst' w',
        create_backup debug clock p w = (Return (Some b), w')
        /\ after_mkdir (fs w) !! p = Some (File c true wr)
        /\ (dst' = b \/ dst' = b ++ [name p])
        /\ fs w' = <[dst' := File c true wr]> (after_mkdir (fs w))).
Proof.
  intros Hd b.
  destruct (copy2_cases (after_mkdir (fs w)) p b)
    as [[e He]|(c & wr & dst' & Hsrc & He & Hdst)].
  - left. exists e. eexists. split.
    + unfold create_backup, bind at 1, on_disk at 1.
      rewrite (mkdir_run _ Hd).
      unfold bind at 1, now. simpl. fold b.
      unfold try_except, bind at 1, on_disk at 1. simpl. rewrite He.
      unfold bind, ret. rewrite log_run. reflexivity.
    + rewrite fs_logged. simpl. auto.
  - right. exists c, wr, dst'. eexists. split.
    + unfold create_backup, bind at 1, on_disk at 1.
      rewrite (mkdir_run _ Hd).
      unfold bind at 1, now. simpl. fold b.
      unfold try_except, bind at 1, on_disk at 1. simpl. rewrite He.
      unfold bind, ret. rewrite log_run. reflexivity.
    + rewrite fs_logged. simpl. auto.
Qed.

(** [create_backup] of a readable file under a free name. *)
Lemma create_backup_ok w p c wr :
  fs w !! p = Some (File c true wr) ->
  backup_dir_writable (fs w) ->
  fs w !! backup_path_of p (clock (tick w)) = None ->
  let b := backup_path_of p (clock (tick w)) in
  exists w',
    create_backup debug clock p w = (Return (Some b), w')
    /\ fs w' = <[b := File c true wr]> (after_mkdir (fs w))
    /\ (forall e, e ∈ out w' -> e ∈ out w \/ e = (Debug, BackupCreated b))
    /\ (forall e, e ∈ out w -> e ∈ out w').
Proof.
  intros Hp Hd Hb b.
  pose proof (ready_of_writable _ Hd) as Hr.
  unfold create_backup, bind at 1, on_disk at 1.
  rewrite (mkdir_run _ Hr).
  unfold bind at 1, now. simpl. fold b.
  unfold try_except, bind at 1, on_disk at 1. simpl.
  rewrite (copy2_ok (after_mkdir (fs w)) p b c wr).
  - unfold bind, ret. rewrite log_run. eexists. split; [reflexivity|].
    rewrite fs_logged. split_and!; [reflexivity| |].
    + intros e He. apply out_logged_inv in He. exact He.
    + intros e He. now apply out_logged_old.
  - now apply after_mkdir_file.
  - rewrite after_mkdir_other by apply backup_path_not_dir. exact Hb.
  - change (parent b) with backup_dir. now apply after_mkdir_dir.
Qed.

(** X6. The backup [create_backup] makes of a file the process may
    read, under a name that is free in a backup directory that takes new
    entries, is an exact copy: same bytes, same mode, and the file itself
    is left as it was. *)
Theorem create_backup_copies w p c wr :
  fs w !! p = Some (File c true wr) ->
  backup_dir_writable (fs w) ->
  fs w !! backup_path_of p (clock (tick w)) = None ->
  let run := create_backup debug clock p w in
  fst run = Return (Some (backup_path_of p (clock (tick w))))
  /\ fs (snd run) !! backup_path_of p (clock (tick w)) = Some (File c true wr)
  /\ fs (snd run) !! p = Some (File c true wr).
Proof.
  intros Hp Hd Hb.
  destruct (create_backup_ok w p c wr Hp Hd Hb) as (w' & Hrun & Hfs & _).
  cbv zeta. rewrite Hrun. simpl. rewrite Hfs. split_and!.
  - reflexivity.
  - apply lookup_insert_eq.
  - rewrite lookup_insert_ne by congruence.
    apply after_mkdir_file; [now apply ready_of_writable|exact Hp].
Qed.

(** The changed branch of the [try] suite on a file the process may read
    and write. *)
Lemma try_suite_rewrites w p ob bs text :
  fs w !! p = Some (File bs true true) ->
  read_text bs = Some text ->
  cleanup text <> text ->
  exists bs' w',
    try_suite debug p ob w = (Return true, w')
    /\ encode (cleanup text) = Some bs'
    /\ read_text bs' = Some (cleanup text)
    /\ fs w' = <[p := File bs' true true]> (fs w)
    /\ (Success, FileCleaned) ∈ out w'.
Proof.
  intros Hp Hread Hne.
  destruct (cleanup_round_trip bs text Hread) as (bs' & Henc & Hback).
  destruct (try_suite_read debug w p ob bs true text Hp Hread)
    as (w2 & Hfs2 & _ & _ & _ & ->).
  assert (Hcmp : negb (str_eqb (cleanup text) text) = true).
  { apply negb_true_iff. destruct (str_eqb (cleanup text) text) eqn:E;
      [|reflexivity]. now apply str_eqb_eq in E. }
  rewrite Hcmp. unfold bind at 1, bind at 1, on_disk at 1.
  rewrite <- Hfs2 in Hp.
  rewrite (write_text_run (fs w2) p bs true (cleanup text) bs' Hp Henc).
  unfold bind at 1. rewrite log_run.
  set (w3 := logged debug Success FileCleaned (set_fs _ w2)).
  assert (Hfs3 : fs w3 = <[p := File bs' true true]> (fs w)).
  { subst w3. rewrite fs_logged. simpl. now rewrite Hfs2. }
  assert (Hin3 : (Success, FileCleaned) ∈ out w3).
  { subst w3. now apply out_logged_new. }
  exists bs'. destruct ob as [b|].
  - unfold bind, ret. rewrite log_run. eexists. split; [reflexivity|].
    rewrite fs_logged. split_and!; auto. now apply out_logged_old.
  - unfold bind, ret. eexists. split; [reflexivity|]. auto.
Qed.

(** X12. [clean_file] on a file the process may read and write whose
    text the transform changes: the call returns [True], the file holds
    the UTF-8 bytes of the transformed text (reading it back in text mode
    gives exactly [cleanup text]) with its mode kept, and "File cleaned"
    is reported. With backups requested, into a backup directory that
    takes new entries and under a name that is free, the backup stays on
    the disk and holds the bytes the file had before. *)
Theorem clean_file_rewrites w p cb bs text :
  fs w !! p = Some (File bs true true) ->
  read_text bs = Some text ->
  cleanup text <> text ->
  (cb = true -> backup_dir_writable (fs w)
                /\ fs w !! backup_path_of p (clock (tick w)) = None) ->
  exists bs' w',
    clean_file debug clock p cb false w = (Return true, w')
    /\ fs w' !! p = Some (File bs' true true)
    /\ read_text bs' = Some (cleanup text)
    /\ (Success, FileCleaned) ∈ out w'
    /\ (cb = true ->
        fs w' !! backup_path_of p (clock (tick w)) = Some (File bs true true)).
Proof.
  intros Hp Hread Hne Hcb.
  rewrite (clean_file_enter debug clock w p _ cb Hp) by discriminate.
  set (w0 := logged debug Info (Cleaning (name p)) w).
  assert (Hp0 : fs w0 !! p = Some (File bs true true))
    by (subst w0; now rewrite fs_logged).
  assert (Ht0 : tick w0 = tick w) by (subst w0; apply tick_logged).
  destruct cb.
  - destruct (Hcb eq_refl) as [Hd Hb].
    assert (Hd0 : backup_dir_writable (fs w0))
      by (subst w0; now rewrite fs_logged).
    assert (Hb0 : fs w0 !! backup_path_of p (clock (tick w0)) = None)
      by (rewrite Ht0; subst w0; now rewrite fs_logged).
    destruct (create_backup_ok w0 p bs true Hp0 Hd0 Hb0)
      as (w1 & Hrun & Hfs1 & _).
    rewrite Ht0 in Hrun, Hfs1.
    set (b := backup_path_of p (clock (tick w))) in *.
    assert (Hpb : b <> p) by congruence.
    assert (Hp1 : fs w1 !! p = Some (File bs true true)).
    { rewrite Hfs1, lookup_insert_ne by exact Hpb.
      apply after_mkdir_file; [now apply ready_of_writable|exact Hp0]. }
    unfold bind at 1. rewrite Hrun. unfold try_except.
    destruct (try_suite_rewrites w1 p (Some b) bs text Hp1 Hread Hne)
      as (bs' & w' & -> & _ & Hback & Hfs' & Hin).
    exists bs', w'. split_and!; auto.
    + rewrite Hfs'. apply lookup_insert_eq.
    + intros _. rewrite Hfs', lookup_insert_ne by congruence.
      rewrite Hfs1. apply lookup_insert_eq.
  - unfold bind at 1, ret at 1. unfold try_except.
    destruct (try_suite_rewrites w0 p None bs text Hp0 Hread Hne)
      as (bs' & w' & -> & _ & Hback & Hfs' & Hin).
    exists bs', w'. split_and!; auto.
    + rewrite Hfs'. apply lookup_insert_eq.
    + discriminate.
Qed.

End Runs.

End RewriteFacts.

(* ===================================================================== *)
(** ** Failures with and without backups *)
(* ===================================================================== *)

Module ContainmentFacts.
Import Py Fs DocumentCleanup Frames CleanText CleanupFacts CleanupFrames.
Import TransformFacts Utf8Facts RewriteFacts.

Section Runs.

Variable debug : bool.
Variable clock : nat -> string.







(** *** A backup directory that cannot be made *)

Lemma mkdir_fails (d : disk) :
  ~ backup_dir_ready d ->
  exists e, mkdir_exist_ok backup_dir d = (Raise e, d).
Proof.
  unfold backup_dir_ready, mkdir_exist_ok. intros Hn.
  destruct (d !! backup_dir) as [[bw|c r wr]|] eqn:Hb.
  - exfalso. apply Hn. left. now exists bw.
  - eexists. reflexivity.
  - destruct (d !! parent backup_dir) as [[[|]|c r wr]|] eqn:Hpar;
      try (eexists; reflexivity).
    exfalso. apply Hn. right. auto.
Qed.

(** X15. When the backup directory is not there and cannot be made (a
    file stands at its path, or the working directory takes no new
    entry), a run with backups is aborted by the exception of [mkdir],
    which no [try] surrounds: [clean_all] raises after "Cleaning
    files..." with no file attempted, [clean_file] on a regular file
    raises after "Cleaning: <name>", and in both cases the disk is what
    it was. *)
Theorem backup_dir_blocked_aborts (rmtree : path -> io disk unit)
    w files auto p :
  ~ backup_dir_ready (fs w) ->
  (exists e,
      clean_all debug clock rmtree files true false auto w
      = (Raise e, logged debug Info CleaningFiles w))
  /\ (is_regular (fs w) p = true ->
      exists e,
        clean_file debug clock p true false w
        = (Raise e, logged debug Info (Cleaning (name p)) w)).
Proof.
  intros Hn. split.
  - destruct (mkdir_fails (fs (logged debug Info CleaningFiles w)))
      as (e & He); [now rewrite fs_logged|].
    exists e. unfold clean_all. unfold bind at 1. rewrite log_run.
    cbn [andb negb]. unfold bind at 1, on_disk at 1. rewrite He.
    now rewrite set_fs_id.
  - intros Hreg. unfold is_regular in Hreg.
    destruct (fs w !! p) as [[dw|bs r wr]|] eqn:Hp; try discriminate.
    destruct (mkdir_fails (fs (logged debug Info (Cleaning (name p)) w)))
      as (e & He); [now rewrite fs_logged|].
    exists e.
    rewrite (clean_file_enter debug clock w p _ true Hp) by discriminate.
    unfold bind at 1, create_backup, bind at 1, on_disk at 1. rewrite He.
    now rewrite set_fs_id.
Qed.

End Runs.

End ContainmentFacts.

(* ===================================================================== *)
(** ** More on the validator *)
(* ===================================================================== *)

Module ValidatorMore.
Import Py Fs MarkdownManager ValidatorReport CleanText ValidatorFacts.

Section Runs.

Variable debug : bool.

(** Check 3 returns the count raised by the number of its messages. *)
Lemma check_headings_full (lines : list str) : forall line_num prev e w,
  check_headings debug line_num lines prev e w
  = (Return (e + length (heading_skips line_num lines prev))%nat,
     World (fs w) (out w ++ heading_skips line_num lines prev)).
Proof.
  induction lines as [|line rest IH]; intros line_num prev e w; simpl.
  - unfold ret. now rewrite Nat.add_0_r, app_nil_r, world_eta.
  - destruct (match_heading line) as [cur|]; [|apply IH].
    unfold bind at 1.
    rewrite (check_run debug (prev + 1 <? cur)%nat Error
               (HeadingLevelSkipped line_num (strip line)) e w eq_refl).
    rewrite IH. simpl. rewrite length_app, <- app_assoc. f_equal. f_equal.
    destruct (prev + 1 <? cur)%nat; simpl; lia.
Qed.

Lemma count_level_app l o1 o2 :
  count_level l (o1 ++ o2) = (count_level l o1 + count_level l o2)%nat.
Proof. unfold count_level. now rewrite List.filter_app, length_app. Qed.

Lemma count_error_skips (lines : list str) : forall n prev,
  count_level Error (heading_skips n lines prev)
  = length (heading_skips n lines prev)
  /\ count_level Warning (heading_skips n lines prev) = 0%nat.
Proof.
  induction lines as [|line rest IH]; intros n prev; simpl; [auto|].
  destruct (match_heading line) as [cur|]; [|apply IH].
  rewrite !count_level_app, length_app.
  destruct (IH (S n) cur) as [-> ->].
  destruct (prev + 1 <? cur)%nat; auto.
Qed.

(** The last lines of [validate_file]: one message, the verdict. *)
Lemma verdict_run (e wn : nat) w :
  (if (e =? 0)%nat && (wn =? 0)%nat then log debug Success Valid
   else if (e =? 0)%nat then log debug Warning (WarningsOnly wn)
   else log debug Error (ErrorsAndWarnings e wn)) w
  = (Return tt, World (fs w) (out w ++ [verdict e wn])).
Proof.
  unfold verdict.
  destruct ((e =? 0)%nat && (wn =? 0)%nat); [|destruct (e =? 0)%nat];
    rewrite report_run; reflexivity.
Qed.

(** The checks of lines 90-142 on a text: what is logged, and what is
    returned. *)
Lemma validate_content_full file_name content w :
  validate_content debug file_name content w
  = (Return (count_level Error (findings content),
             count_level Warning (findings content)),
     World (fs w)
           (out w ++ [(Info, Validating file_name)] ++ findings content
            ++ [verdict (count_level Error (findings content))
                        (count_level Warning (findings content))])).
Proof.
  assert (He : count_level Error (findings content)
               = (0 + Nat.b2n (search_trailing_blank content)
                  + Nat.b2n (search_blank_run 0 content)
                  + length (heading_skips 1 (split_nl content) 0)
                  + Nat.b2n ((0 <? count_fences content)
                             && negb (count_fences content mod 2 =? 0))
                  + Nat.b2n (str_eqb (strip content) []))%nat).
  { unfold findings. rewrite !count_level_app.
    destruct (count_error_skips (split_nl content) 1 0) as [-> _].
    unfold when.
    repeat match goal with |- context [if ?c then _ else _] => destruct c end;
      unfold count_level; simpl; lia. }
  assert (Hw : count_level Warning (findings content)
               = (0 + Nat.b2n (negb (str_eqb content [])
                               && negb (endswith [LF] content))
                  + Nat.b2n (negb (str_eqb (strip content) [])
                             && negb (startswith [HASH] (strip content))))%nat).
  { unfold findings. rewrite !count_level_app.
    destruct (count_error_skips (split_nl content) 1 0) as [_ ->].
    unfold when.
    repeat match goal with |- context [if ?c then _ else _] => destruct c end;
      unfold count_level; simpl; lia. }
  rewrite He, Hw. unfold validate_content.
  unfold bind at 1. rewrite report_run.
  unfold bind at 1. rewrite check_run by reflexivity.
  unfold bind at 1. rewrite check_run by reflexivity.
  unfold bind at 1. rewrite check_headings_full.
  unfold bind at 1. rewrite check_run by reflexivity.
  unfold bind at 1. rewrite check_run by reflexivity.
  unfold bind at 1. rewrite check_run by reflexivity.
  unfold bind at 1. rewrite check_run by reflexivity.
  unfold bind at 1. rewrite verdict_run. unfold ret. simpl fs. simpl out.
  unfold findings, when. rewrite <- !app_assoc. reflexivity.
Qed.

Lemma validate_file_text w p content :
  text_of (fs w) p = Some content ->
  validate_file debug p w = validate_content debug (name p) content w.
Proof.
  unfold text_of. intros H.
  destruct (fs w !! p) as [[|bs [|] wr]|] eqn:Hp; try discriminate.
  now apply (validate_file_read debug w p bs wr content).
Qed.

Lemma validate_file_no_text w p :
  text_of (fs w) p = None ->
  exists m,
    validate_file debug p w
    = (Return (1, 0)%nat, World (fs w) (out w ++ [(Error, m)])).
Proof.
  unfold text_of, validate_file. intros H.
  unfold bind at 1, on_disk at 1, exists_, gets. rewrite world_eta.
  destruct (fs w !! p) as [nd|] eqn:Hp; simpl.
  2:{ eexists. reflexivity. }
  unfold bind at 1, on_disk at 1, is_file, gets. rewrite world_eta, Hp.
  destruct nd as [dw|bs r wr]; simpl.
  { eexists. reflexivity. }
  unfold bind at 1, try_except, bind at 1, on_disk, read_text_file, bind at 1,
    read_bytes.
  rewrite Hp. destruct r.
  - rewrite H. unfold raise, bind, ret. rewrite report_run, world_eta.
    eexists. reflexivity.
  - unfold bind, ret. rewrite report_run, world_eta. eexists. reflexivity.
Qed.


(** X18. A path [validate_file] cannot get a text from (nothing there, a
    directory, a file the process may not read, bytes that are not
    UTF-8) counts as one error and no warning, with one error message;
    none of the seven checks runs. *)
Theorem validate_file_without_text w p :
  text_of (fs w) p = None ->
  exists m,
    validate_file debug p w
    = (Return (1, 0)%nat, World (fs w) (out w ++ [(Error, m)]))
    /\ m = match fs w !! p with
           | None => FileNotFound p
           | Some (Dir _) => NotAFile p
           | Some (File _ true _) => CannotReadFile p UnicodeDecodeError
           | Some (File _ false _) => CannotReadFile p PermissionError
           end.
Proof.
  intros H. destruct (validate_file_no_text w p H) as (m & Hrun).
  exists m. split; [exact Hrun|].
  revert Hrun. unfold text_of in H. unfold validate_file.
  unfold bind at 1, on_disk at 1, exists_, gets. rewrite world_eta.
  destruct (fs w !! p) as [nd|] eqn:Hp; simpl.
  2:{ intros [= E]. apply app_inv_head in E. now injection E as <-. }
  unfold bind at 1, on_disk at 1, is_file, gets. rewrite world_eta, Hp.
  destruct nd as [dw|bs r wr]; simpl.
  { intros [= E]. apply app_inv_head in E. now injection E as <-. }
  unfold bind at 1, try_except, bind at 1, on_disk, read_text_file, bind at 1,
    read_bytes.
  rewrite Hp. destruct r.
  - rewrite H. unfold raise, bind, ret. rewrite report_run, world_eta.
    intros [= E]. apply app_inv_head in E. now injection E as <-.
  - unfold bind, ret. rewrite report_run, world_eta.
    intros [= E]. apply app_inv_head in E. now injection E as <-.
Qed.

(** X19. On a file it can read, [validate_file] logs "Validating", then
    the findings of the seven checks in their order (none keeps another
    from running), then its verdict; the counts it returns are the
    numbers of findings logged as errors and as warnings, and the verdict
    is "Valid" exactly when both are zero. *)
Theorem validate_file_report w p content :
  text_of (fs w) p = Some content ->
  let errors := count_level Error (findings content) in
  let warnings := count_level Warning (findings content) in
  validate_file debug p w
  = (Return (errors, warnings),
     World (fs w)
           (out w ++ [(Info, Validating (name p))] ++ findings content
            ++ [verdict errors warnings]))
  /\ (verdict errors warnings = (Success, Valid)
      <-> errors = 0%nat /\ warnings = 0%nat).
Proof.
  intros Ht errors warnings. split.
  - rewrite (validate_file_text w p content Ht). apply validate_content_full.
  - unfold verdict. destruct errors, warnings; simpl; split;
      try (intros [? ?]); try discriminate; auto.
Qed.

(** *** [validate_all] *)






End Runs.

End ValidatorMore.

(* ===================================================================== *)
(** ** The cleaner's output under the validator *)
(* ===================================================================== *)

Module PipelineFacts.
Import Py Fs MarkdownManager ValidatorReport CleanText ValidatorFacts.
Import TransformFacts ValidatorMore.

Lemma when_elem (c : bool) l m (e : level * msg) :
  e ∈ when c l m -> c = true /\ e = (l, m).
Proof.
  destruct c; simpl; intros H.
  - apply list_elem_of_singleton in H. auto.
  - now apply elem_of_nil in H.
Qed.

Lemma heading_skips_errors (lines : list str) : forall line_num prev e,
  e ∈ heading_skips line_num lines prev -> fst e = Error.
Proof.
  induction lines as [|line rest IH]; intros line_num prev e H; simpl in H.
  - now apply elem_of_nil in H.
  - destruct (match_heading line) as [k|]; [|now apply IH in H].
    apply elem_of_app in H as [H|H]; [|now apply IH in H].
    destruct (prev + 1 <? k)%nat.
    + apply list_elem_of_singleton in H. now subst e.
    + now apply elem_of_nil in H.
Qed.

Lemma verdict_not_finding errors warnings :
  verdict errors warnings <> (Warning, ShouldEndWithNewline).
Proof.
  unfold verdict.
  destruct (errors =? 0)%nat, (warnings =? 0)%nat; simpl; discriminate.
Qed.

(** A text that ends in a newline is not warned about its end. *)
Lemma no_newline_warning (body : str) :
  (Warning, ShouldEndWithNewline) ∉ findings (body ++ [LF]).
Proof.
  unfold findings. intros H.
  repeat (apply elem_of_app in H as [H|H]);
    try (apply when_elem in H as [_ H]; discriminate H).
  - apply heading_skips_errors in H. discriminate H.
  - apply when_elem in H as [H _]. rewrite endswith_snoc in H.
    change (LF =? LF) with true in H. simpl in H.
    now rewrite andb_false_r in H.
Qed.

(** X21. The cleaner's output always satisfies the validator's check 5:
    on a file whose text is an output of the transform, [validate_file]
    returns its counts without the warning "File should end with
    newline" among the messages it adds. *)
Theorem cleaned_text_not_warned_about_newline debug w p text :
  text_of (fs w) p = Some (DocumentCleanup.cleanup text) ->
  exists counts new,
    validate_file debug p w = (Return counts, World (fs w) (out w ++ new))
    /\ (Warning, ShouldEndWithNewline) ∉ new.
Proof.
  intros Ht. rewrite (validate_file_text debug w p _ Ht).
  rewrite validate_content_full. eexists _, _. split; [reflexivity|].
  assert (Hend : ends_with_one_newline (DocumentCleanup.cleanup text))
    by apply finish_ends.
  destruct (ends_with_one_newline_lf _ Hend) as (body & Hbody & _).
  rewrite Hbody. intros H.
  apply elem_of_cons in H as [H|H]; [discriminate H|].
  apply elem_of_app in H as [H|H]; [now apply no_newline_warning in H|].
  apply list_elem_of_singleton in H.
  symmetry in H. revert H. apply verdict_not_finding.
Qed.

End PipelineFacts.
(* ===================================================================== *)
(** ** The generated templates under the validator *)
(* ===================================================================== *)

Module TemplateFacts.
Import Py Fs MarkdownManager ValidatorReport Templates ValidatorFacts.
Import ValidatorMore PipelineFacts.

(** A blank right before a newline is what check 1 looks for. *)
Lemma search_trailing_blank_mid (a b : str) :
  search_trailing_blank (a ++ SP :: LF :: b) = true.
Proof.
  induction a as [|c a IH]; [reflexivity|].
  cbn [app search_trailing_blank]. rewrite IH. apply orb_true_r.
Qed.

Lemma strip_head (c : char) (s : str) :
  isspace c = false -> exists r, strip (c :: s) = c :: r.
Proof.
  intros Hc. unfold strip. cbn [rstrip].
  destruct (rstrip isspace s) as [|d r].
  - rewrite Hc. cbn [lstrip]. rewrite Hc. now exists [].
  - cbn [lstrip]. rewrite Hc. now exists (d :: r).
Qed.

Lemma heading_skips_form (lines : list str) : forall line_num prev e,
  e ∈ heading_skips line_num lines prev ->
  exists n l, e = (Error, HeadingLevelSkipped n l).
Proof.
  induction lines as [|line rest IH]; intros line_num prev e H; simpl in H.
  - now apply elem_of_nil in H.
  - destruct (match_heading line) as [k|]; [|now apply IH in H].
    apply elem_of_app in H as [H|H]; [|now apply IH in H].
    destruct (prev + 1 <? k)%nat.
    + apply list_elem_of_singleton in H. eauto.
    + now apply elem_of_nil in H.
Qed.

Lemma count_error_cons m o :
  count_level Error ((Error, m) :: o) = S (count_level Error o).
Proof. reflexivity. Qed.

Lemma release_1_head : u8 release_1 = HASH :: tl (u8 release_1).
Proof. vm_compute. reflexivity. Qed.

Lemma release_2_head : u8 release_2 = SP :: SP :: LF :: tl (tl (tl (u8 release_2))).
Proof. vm_compute. reflexivity. Qed.

Lemma changelog_1_head : u8 changelog_1 = HASH :: tl (u8 changelog_1).
Proof. vm_compute. reflexivity. Qed.

Lemma changelog_2_head :
  u8 changelog_2 = SP :: SP :: LF :: tl (tl (tl (u8 changelog_2))).
Proof. vm_compute. reflexivity. Qed.

(** The literals with characters outside ASCII are valid UTF-8: they
    decode to as many characters as the source has there. *)
Lemma release_3_decoded :
  length <$> decode (blit release_3) = Some 981%nat.
Proof. vm_compute. reflexivity. Qed.

Lemma changelog_3_decoded :
  length <$> decode (blit changelog_3) = Some 513%nat.
Proof. vm_compute. reflexivity. Qed.

(** Both templates start with a hash and have two spaces before the
    newline that follows the time stamp. *)
Lemma template_shape (timestamp template_type : str) (args : list str) :
  template_type = lit "release" \/ template_type = lit "changelog" ->
  exists a b,
    generate_template timestamp template_type args
    = HASH :: (a ++ timestamp ++ [SP]) ++ SP :: LF :: b.
Proof.
  intros [-> | ->]; unfold generate_template.
  - change (str_eqb (lit "release") (lit "release")) with true. cbv iota zeta.
    exists (tl (u8 release_1)),
           (tl (tl (tl (u8 release_2))) ++ release_type_of args ++ u8 release_3).
    rewrite release_1_head at 1. rewrite release_2_head at 1.
    cbn [app]. f_equal. rewrite <- !app_assoc. reflexivity.
  - change (str_eqb (lit "changelog") (lit "release")) with false.
    change (str_eqb (lit "changelog") (lit "changelog")) with true.
    cbv iota zeta.
    exists (tl (u8 changelog_1)),
           (tl (tl (tl (u8 changelog_2))) ++ release_type_of args
            ++ u8 changelog_3).
    rewrite changelog_1_head at 1. rewrite changelog_2_head at 1.
    cbn [app]. f_equal. rewrite <- !app_assoc. reflexivity.
Qed.

(** X22. A release or changelog template of [generate_template] does not
    pass [validate_file] of the same script, whatever the time stamp and
    the release type: in a file whose text starts with the template (the
    newline [print] adds, or anything else, may follow), the two spaces
    the template has after its release date make check 1 fire, so the
    file counts at least one error and "Trailing whitespace found" is
    logged. Such a file is not reported as empty nor as lacking a
    header. *)
Theorem generated_template_fails_validation debug w p
    (timestamp template_type : str) (args : list str) (tail : str) :
  template_type = lit "release" \/ template_type = lit "changelog" ->
  text_of (fs w) p
  = Some (generate_template timestamp template_type args ++ tail) ->
  exists errors warnings new,
    validate_file debug p w
    = (Return (errors, warnings), World (fs w) (out w ++ new))
    /\ (1 <= errors)%nat
    /\ (Error, TrailingWhitespaceFound) ∈ new
    /\ ((Error, FileIsEmpty) ∉ new)
    /\ ((Warning, ShouldStartWithHeader) ∉ new).
Proof.
  intros Hty Ht.
  destruct (template_shape timestamp template_type args Hty) as (a & b & E).
  rewrite E in Ht.
  set (content := (HASH :: (a ++ timestamp ++ [SP]) ++ SP :: LF :: b) ++ tail)
    in *.
  assert (Hblank : search_trailing_blank content = true).
  { subst content. rewrite <- app_comm_cons, <- app_assoc.
    apply (search_trailing_blank_mid (HASH :: a ++ timestamp ++ [SP])). }
  destruct (strip_head HASH (((a ++ timestamp ++ [SP]) ++ SP :: LF :: b)
                             ++ tail) eq_refl) as (r & Hstrip).
  change (strip content = HASH :: r) in Hstrip.
  rewrite (validate_file_text debug w p _ Ht), validate_content_full.
  eexists _, _, _. split; [reflexivity|].
  set (rest := when (search_blank_run 0 content) Error MultipleBlankLinesFound
               ++ heading_skips 1 (split_nl content) 0
               ++ when ((0 <? count_fences content)%nat
                        && negb (count_fences content mod 2 =? 0)%nat)
                       Error UnclosedCodeBlockFound
               ++ when (negb (str_eqb content [])
                        && negb (endswith [LF] content))
                       Warning ShouldEndWithNewline).
  assert (Hf : findings content = (Error, TrailingWhitespaceFound) :: rest).
  { unfold findings. rewrite Hblank, Hstrip.
    change (str_eqb (HASH :: r) []) with false.
    change (startswith [HASH] (HASH :: r)) with true.
    cbn [when negb andb app]. subst rest. now rewrite !app_nil_r. }
  assert (Hrest : forall e, e ∈ rest ->
            e <> (Error, FileIsEmpty) /\ e <> (Warning, ShouldStartWithHeader)).
  { intros e He. subst rest.
    repeat (apply elem_of_app in He as [He|He]);
      try (apply when_elem in He as [_ ->]; split; discriminate).
    apply heading_skips_form in He as (n & l & ->). split; discriminate. }
  rewrite Hf. split_and!.
  - rewrite count_error_cons. lia.
  - apply elem_of_app. right. apply elem_of_app. left.
    apply elem_of_cons. now left.
  - intros H. apply elem_of_cons in H as [H|H]; [discriminate H|].
    apply elem_of_app in H as [H|H].
    + apply elem_of_cons in H as [H|H]; [discriminate H|].
      now apply Hrest in H as [H _].
    + apply list_elem_of_singleton in H. revert H. unfold verdict.
      rewrite count_error_cons. simpl. discriminate.
  - intros H. apply elem_of_cons in H as [H|H]; [discriminate H|].
    apply elem_of_app in H as [H|H].
    + apply elem_of_cons in H as [H|H]; [discriminate H|].
      now apply Hrest in H as [_ H].
    + apply list_elem_of_singleton in H. revert H. unfold verdict.
      rewrite count_error_cons. simpl. discriminate.
Qed.

End TemplateFacts.

(* ===================================================================== *)
(** ** Instances of the general theorems *)
(* ===================================================================== *)

Module CleanupInstances.
Import Py Fs DocumentCleanup Frames CleanText Scenarios.



(** [clean_file_not_regular] at a path that is not there. *)
Lemma clean_file_not_regular_witness :
  clean_file false stamp b_txt true false
    (start (tree1 a_txt (blit "x") true true))
  = (Return false,
     World (tree1 a_txt (blit "x") true true)
           [(Error, FileNotFound b_txt)] 0).
Proof.
  rewrite (CleanupFrames.clean_file_not_regular false stamp
             (start (tree1 a_txt (blit "x") true true)) b_txt true false).
  - reflexivity.
  - reflexivity.
Defined.

(** [line_loop_strips_only_the_end] at ["a  \nb  "]: the loop takes the
    blanks of the last line only. *)
Lemma line_loop_strips_only_the_end_witness :
  join0 (cleaned 2 1 (keepends (lit "a  " ++ [LF] ++ lit "b  ")))
  = lit "a  " ++ [LF] ++ lit "b".
Proof.
  exact (TransformFacts.line_loop_strips_only_the_end
           (blit "a  " ++ [x0a] ++ blit "b  ")
           (lit "a  " ++ [LF] ++ lit "b  ") eq_refl).
Defined.

(** [cleanup_fixed_iff_clean] at ["a\n"], which is clean. *)
Lemma cleanup_fixed_iff_clean_witness :
  cleanup (lit "a" ++ [LF]) = lit "a" ++ [LF] <-> clean (lit "a" ++ [LF]).
Proof.
  apply (TransformFacts.cleanup_fixed_iff_clean (lit "a" ++ [LF])).
  reflexivity.
Defined.

(** [cleanup_adds_only_newlines] at the first character of what the
    transform makes of ["x"]. *)
Lemma cleanup_adds_only_newlines_witness :
  120 = LF \/ In 120 (lit "x").
Proof.
  apply (RewriteFacts.cleanup_adds_only_newlines (lit "x") 120).
  vm_compute. auto.
Defined.

(** [backup_dir_blocked_aborts] where a file stands at the backup
    directory's path. *)
Lemma backup_dir_blocked_aborts_witness :
  exists e,
    clean_all false stamp (fun _ => ret tt) [a_txt] true false false
      (start blocked_backup_dir)
    = (Raise e, World blocked_backup_dir [(Info, CleaningFiles)] 0).
Proof.
  destruct (ContainmentFacts.backup_dir_blocked_aborts false stamp
              (fun _ => ret tt) (start blocked_backup_dir) [a_txt] false a_txt)
    as [(e & Hrun) _].
  - intros [[bw H]|[H _]]; vm_compute in H; discriminate H.
  - exists e. exact Hrun.
Defined.

(** [clean_file_undecodable_restored] at an [a.txt] that is not UTF-8,
    with a backup. *)
Lemma clean_file_undecodable_restored_witness :
  exists w',
    clean_file false stamp a_txt true false
      (start (tree1 a_txt [xff] true true)) = (Return false, w')
    /\ fs w' !! a_txt = Some (File [xff] true true).
Proof.
  apply (CleanupFacts.clean_file_undecodable_restored false stamp
           (start (tree1 a_txt [xff] true true)) a_txt true [xff]).
  - reflexivity.
  - reflexivity.
  - intros _. split.
    + right. split; reflexivity.
    + intros dw. vm_compute. discriminate.
Defined.

(** [create_backup_contract] at [a.txt] with no backup directory yet. *)
Lemma create_backup_contract_witness :
  exists ob w',
    create_backup false stamp a_txt
      (start (tree1 a_txt (blit "x") true true)) = (Return ob, w').
Proof.
  destruct (RewriteFacts.create_backup_contract false stamp
              (start (tree1 a_txt (blit "x") true true)) a_txt)
    as [(e & w' & Hrun & _)|(c & wr & dst' & w' & Hrun & _)].
  - right. split; reflexivity.
  - eauto.
  - eauto.
Defined.

(** [create_backup_copies] at [a.txt] with no backup directory yet. *)
Lemma create_backup_copies_witness :
  fs (snd (create_backup false stamp a_txt
             (start (tree1 a_txt (blit "x") true true)))) !! a_txt_backup
  = Some (File (blit "x") true true).
Proof.
  destruct (RewriteFacts.create_backup_copies false stamp
              (start (tree1 a_txt (blit "x") true true)) a_txt
              (blit "x") true) as (_ & Hcopy & _).
  - reflexivity.
  - right. split; reflexivity.
  - reflexivity.
  - exact Hcopy.
Defined.

(** [clean_file_rewrites] at [a.txt] holding ["x  "], with a backup. *)
Lemma clean_file_rewrites_witness :
  exists bs' w',
    clean_file false stamp a_txt true false
      (start (tree1 a_txt (blit "x  ") true true)) = (Return true, w')
    /\ fs w' !! a_txt = Some (File bs' true true)
    /\ read_text bs' = Some (cleanup (lit "x  "))
    /\ fs w' !! a_txt_backup = Some (File (blit "x  ") true true).
Proof.
  destruct (RewriteFacts.clean_file_rewrites false stamp
              (start (tree1 a_txt (blit "x  ") true true)) a_txt true
              (blit "x  ") (lit "x  "))
    as (bs' & w' & Hrun & Hfile & Hback & _ & Hkept).
  - reflexivity.
  - reflexivity.
  - vm_compute. discriminate.
  - intros _. split; [right; split; reflexivity|reflexivity].
  - exists bs', w'. split_and!; auto.
Defined.

End CleanupInstances.

Module ValidatorInstances.
Import Py Fs MarkdownManager ValidatorReport Templates Scenarios.
Import TemplateScenarios.

(** [validate_file_without_text] at a path that is not there. *)
Lemma validate_file_without_text_witness :
  validate_file false b_txt (start_md (tree1 a_md (blit "# T") true true))
  = (Return (1%nat, 0%nat),
     World (tree1 a_md (blit "# T") true true) [(Error, FileNotFound b_txt)]).
Proof.
  destruct (ValidatorMore.validate_file_without_text false
              (start_md (tree1 a_md (blit "# T") true true)) b_txt)
    as (m & Hrun & ->).
  - reflexivity.
  - exact Hrun.
Defined.

(** [validate_file_report] at ["# T\n"]: a valid file. *)
Lemma validate_file_report_witness :
  validate_file false a_md
    (start_md (tree1 a_md (blit "# T" ++ [x0a]) true true))
  = (Return (0%nat, 0%nat),
     World (tree1 a_md (blit "# T" ++ [x0a]) true true)
           [(Info, Validating "a.md"%string); (Success, Valid)]).
Proof.
  destruct (ValidatorMore.validate_file_report false
              (start_md (tree1 a_md (blit "# T" ++ [x0a]) true true))
              a_md (lit "# T" ++ [LF])) as (Hrun & _).
  - reflexivity.
  - exact Hrun.
Defined.

(** [cleaned_text_not_warned_about_newline] at a file holding what the
    transform makes of ["x"]. *)
Lemma cleaned_text_not_warned_about_newline_witness :
  exists counts new,
    validate_file false a_md
      (start_md (tree1 a_md (blit "x" ++ [x0a]) true true))
    = (Return counts,
       World (tree1 a_md (blit "x" ++ [x0a]) true true) new)
    /\ (Warning, ShouldEndWithNewline) ∉ new.
Proof.
  destruct (PipelineFacts.cleaned_text_not_warned_about_newline false
              (start_md (tree1 a_md (blit "x" ++ [x0a]) true true))
              a_md (lit "x")) as (counts & new & Hrun & Hnew).
  - reflexivity.
  - exists counts, new. split; [exact Hrun|exact Hnew].
Defined.

(** [generated_template_fails_validation] at a release template as
    [print] writes it. *)
Lemma generated_template_fails_validation_witness :
  exists errors warnings w',
    validate_file false a_md (start_md (tree1 a_md release_md true true))
    = (Return (errors, warnings), w')
    /\ (1 <= errors)%nat.
Proof.
  destruct (TemplateFacts.generated_template_fails_validation false
              (start_md (tree1 a_md release_md true true)) a_md
              noon (lit "release") [] [LF])
    as (errors & warnings & new & Hrun & Herr & _).
  - left. reflexivity.
  - vm_compute. reflexivity.
  - exists errors, warnings. eexists. split; [exact Hrun|exact Herr].
Defined.

End ValidatorInstances.
